(** * commissaire-service: the RPC engine, the supervisor, the storage
      router and the playbook wrapper, embedded from

      - [src/commissaire_service/service/__init__.py]
          ([ServiceManager], [CommissaireService]);
      - [src/commissaire_service/storage/__init__.py] ([StorageService]);
      - [src/commissaire_service/transport/ansible_wrapper.py]
          ([execute_playbook]).

    Python dictionaries are finite maps ([gmap string _]); what the code
    does on its collaborators (the message, the connection, the queues) is
    recorded as a chronological trace of events in an explicit world that
    every operation threads; a Python exception is the [Raise] outcome of
    a computation. *)

From stdpp Require Import gmap strings list sorting pretty.
From Stdlib Require Import ZArith Ascii.

#[local] Set Warnings "-register-all".
#[local] Open Scope string_scope.

(* ================================================================= *)
(** ** Python values, classes and exceptions *)

(** The values that travel on the bus and sit in configuration files:
    what [json] (de)serialises.  Numbers are the integers. *)
Inductive json : Type :=
  | JNull
  | JBool (b : bool)
  | JNum (z : Z)
  | JStr (s : string)
  | JList (l : list json)
  | JDict (d : gmap string json).

(** [type(v).__name__] *)
Definition type_name (v : json) : string :=
  match v with
  | JNull => "NoneType"
  | JBool _ => "bool"
  | JNum _ => "int"
  | JStr _ => "str"
  | JList _ => "list"
  | JDict _ => "dict"
  end.

(** [v[k]] read as [d.get(k)] on a dictionary, [None] elsewhere. *)
Definition jget (k : string) (v : json) : option json :=
  match v with
  | JDict d => d !! k
  | _ => None
  end.

(** A class: the module that defines it and its [__name__]. *)
Record pyclass := PyClass { cls_module : string; cls_name : string }.

#[global] Instance pyclass_eq_dec : EqDecision pyclass.
Proof. solve_decision. Defined.

(** [str(cls)]: the builtins print without their module. *)
Definition class_str (c : pyclass) : string :=
  "<class '" ++
  (if String.eqb (cls_module c) "builtins" then cls_name c
   else cls_module c ++ "." ++ cls_name c) ++ "'>".

(** An exception instance (of a subclass of [Exception], the ones that
    [except Exception] catches): its class and [str(error)]. *)
Record pyexc := PyExc { exc_class : pyclass; exc_text : string }.

Definition AttributeError : pyclass := PyClass "builtins" "AttributeError".
Definition KeyError : pyclass := PyClass "builtins" "KeyError".
Definition IndexError : pyclass := PyClass "builtins" "IndexError".
Definition TypeError : pyclass := PyClass "builtins" "TypeError".
Definition ValueError : pyclass := PyClass "builtins" "ValueError".
Definition JSONDecodeError : pyclass := PyClass "json.decoder" "JSONDecodeError".
Definition QueueEmpty : pyclass := PyClass "queue" "Empty".
Definition ConfigurationError : pyclass :=
  PyClass "commissaire.util.config" "ConfigurationError".

(** [issubclass(c, LookupError)] and [issubclass(c, ValueError)] on the
    classes above. *)
Definition is_LookupError (c : pyclass) : bool :=
  bool_decide (c = KeyError) || bool_decide (c = IndexError).
Definition is_ValueError (c : pyclass) : bool :=
  bool_decide (c = ValueError) || bool_decide (c = JSONDecodeError).

(** [KeyError(k)]: [str] of it is the [repr] of the key. *)
Definition key_error (k : string) : pyexc :=
  PyExc KeyError ("'" ++ k ++ "'").

(** The outcome of a computation: a value or a raised exception. *)
Inductive res (A : Type) : Type :=
  | Ok (a : A)
  | Raise (e : pyexc).
Arguments Ok {A} a.
Arguments Raise {A} e.

(** [d[k]] *)
Definition getitem (d : gmap string json) (k : string) : res json :=
  match d !! k with
  | Some v => Ok v
  | None => Raise (key_error k)
  end.

(** The one-character strings of a string, as iterating a [str] yields
    them. *)
Fixpoint chars (s : string) : list json :=
  match s with
  | EmptyString => []
  | String c s' => JStr (String c EmptyString) :: chars s'
  end.

(* ================================================================= *)
(** ** The bus, as the engine uses it *)

(** Options of a queue declaration. *)
Record queue_opts := QueueOpts { auto_delete : bool; durable : bool }.

(** [kombu]'s defaults for a [Queue]. *)
Definition default_queue_opts : queue_opts :=
  {| auto_delete := false; durable := true |}.

(** How a handler is invoked: [method(message=message, **params)] or
    [method( *params, message=message)]. *)
Inductive call_args :=
  | ArgsKw (kw : gmap string json)
  | ArgsPos (pos : list json).

(** What the engine does on its collaborators, in order. *)
Inductive event :=
  | EvCall (attr : string) (args : call_args)   (* a handler is invoked *)
  | EvAck (tag : Z)                             (* message.ack() *)
  | EvDeclare (q : string) (o : queue_opts)     (* connection.SimpleQueue(q, ...) *)
  | EvPut (q : string) (payload : json)         (* queue.put(payload) *)
  | EvPublish (routing_key : string) (payload : json) (reply_to : string)
  | EvGet (q : string) (timeout : Z)            (* queue.get(block=True, timeout) *)
  | EvAckReply (q : string)                     (* result.ack() *)
  | EvClose (q : string)                        (* queue.close() *)
  | EvReject (tag : Z) (requeue : bool).        (* message.reject(), .requeue() *)

(** A queue on the broker: the options it was declared with and the
    number of consumers subscribed to it. *)
Record queue_state := QueueState { q_opts : queue_opts; q_consumers : nat }.

(** The world a service runs in: the queues that exist on the broker,
    the replies that reach a queue before a blocking [get] gives up, the
    source of [uuid.uuid4()] and the trace. *)
Record world := World {
  w_queues : gmap string queue_state;
  w_inbox : gmap string (list json);
  w_uuid : nat -> string;
  w_uuid_next : nat;
  w_trace : list event
}.

Definition M (A : Type) : Type := world -> res A * world.

Definition ret {A} (a : A) : M A := fun w => (Ok a, w).
Definition raise {A} (e : pyexc) : M A := fun w => (Raise e, w).
Definition bind {A B} (c : M A) (k : A -> M B) : M B :=
  fun w => match c w with
           | (Ok a, w') => k a w'
           | (Raise e, w') => (Raise e, w')
           end.
Definition lift {A} (r : res A) : M A := fun w => (r, w).

(** [try: c  except Exception as error: h error] *)
Definition try_except {A} (c : M A) (h : pyexc -> M A) : M A :=
  fun w => match c w with
           | (Ok a, w') => (Ok a, w')
           | (Raise e, w') => h e w'
           end.

Notation "'let*' x := c 'in' k" := (bind c (fun x => k))
  (at level 10, x binder, c at level 100, k at level 200).
Notation "c ;;; k" := (bind c (fun _ => k))
  (at level 100, k at level 200, right associativity).

Definition emit (e : event) : M unit :=
  fun w => (Ok tt, World (w_queues w) (w_inbox w) (w_uuid w) (w_uuid_next w)
                         (w_trace w ++ [e])).

Definition set_queues (f : gmap string queue_state -> gmap string queue_state)
  : M unit :=
  fun w => (Ok tt, World (f (w_queues w)) (w_inbox w) (w_uuid w)
                         (w_uuid_next w) (w_trace w)).

(** A [SimpleQueue] object: the queue it stands for and whether its
    consumer is subscribed. *)
Record simple_queue := SimpleQueueObj { sq_name : string; sq_consuming : bool }.

(** Declaring a queue leaves an existing one as it is. *)
Definition declare (name : string) (o : queue_opts)
    (qs : gmap string queue_state) : gmap string queue_state :=
  match qs !! name with
  | Some _ => qs
  | None => <[name := QueueState o 0]> qs
  end.

(** A consumer subscribes. *)
Definition subscribe (name : string) (qs : gmap string queue_state)
  : gmap string queue_state :=
  match qs !! name with
  | Some q => <[name := QueueState (q_opts q) (S (q_consumers q))]> qs
  | None => qs
  end.

(** A consumer is cancelled; a queue declared auto-delete goes with its
    last consumer. *)
Definition unsubscribe (name : string) (qs : gmap string queue_state)
  : gmap string queue_state :=
  match qs !! name with
  | Some q =>
      if auto_delete (q_opts q) && bool_decide (q_consumers q <= 1)
      then delete name qs
      else <[name := QueueState (q_opts q) (pred (q_consumers q))]> qs
  | None => qs
  end.

(** [connection.SimpleQueue(name, queue_opts=o)]: the queue is declared
    on the broker; the consumer of the object is not subscribed yet. *)
Definition SimpleQueue (name : string) (o : queue_opts) : M simple_queue :=
  emit (EvDeclare name o) ;;;
  set_queues (declare name o) ;;;
  ret (SimpleQueueObj name false).

(** [queue.put(payload)] *)
Definition queue_put (q : simple_queue) (payload : json) : M unit :=
  emit (EvPut (sq_name q) payload).

(** [queue.close()]: the consumer of the object is cancelled. *)
Definition queue_close (q : simple_queue) : M unit :=
  emit (EvClose (sq_name q)) ;;;
  if sq_consuming q then set_queues (unsubscribe (sq_name q)) else ret tt.

(** The next reply on a queue, if one arrives in time. *)
Definition receive (name : string) : M json :=
  fun w =>
    match w_inbox w !! name with
    | Some (m :: rest) =>
        (Ok m, World (w_queues w) (<[name := rest]> (w_inbox w))
                     (w_uuid w) (w_uuid_next w) (w_trace w))
    | _ => (Raise (PyExc QueueEmpty ""), w)
    end.

(** [queue.get(block=True, timeout=t)]: the consumer subscribes, then
    the call returns the next reply, or raises [Empty] when none arrives
    in time.  The object comes back subscribed. *)
Definition queue_get (q : simple_queue) (t : Z) : M (json * simple_queue) :=
  emit (EvGet (sq_name q) t) ;;;
  (if sq_consuming q then ret tt else set_queues (subscribe (sq_name q))) ;;;
  let* m := receive (sq_name q) in
  ret (m, SimpleQueueObj (sq_name q) true).

(** The inbound message, as far as the engine reads it. *)
Record message := Message {
  delivery_tag : Z;
  routing_key : string;      (* delivery_info['routing_key'] *)
  reply_to : option string   (* properties.get('reply_to') *)
}.

Definition message_ack (msg : message) : M unit :=
  emit (EvAck (delivery_tag msg)).

(* ================================================================= *)
(** ** [CommissaireService]: inbound dispatch and outbound calls *)

Module CommissaireService.

(** A handler that only computes, by what a call of it yields: the
    value it returns or the exception the call raises.  Handlers that
    act on the message or on the bus are those of [Acting], below. *)
Definition handler : Type := message -> call_args -> res json.

(** A service instance: the name of its class, its attributes whose name
    starts with [on_] (what [getattr] finds), and its [on_message]. *)
Record service := Service {
  svc_class : string;
  svc_attr : string -> option handler;
  svc_on_message : json -> message -> M unit
}.

(** [CommissaireService.on_message]: the message is logged as unknown and
    acknowledged. *)
Definition on_message (body : json) (msg : message) : M unit :=
  message_ack msg.

(** [getattr(self, name)] *)
Definition getattr (svc : service) (name : string) : res handler :=
  match svc_attr svc name with
  | Some h => Ok h
  | None =>
      Raise (PyExc AttributeError
               ("'" ++ svc_class svc ++ "' object has no attribute '" ++
                name ++ "'"))
  end.

(** [s.rsplit(sep, 1)]: one piece when [sep] does not occur, else what
    is before and what is after its last occurrence. *)
Fixpoint rsplit_at (sep : ascii) (s : string) : option (string * string) :=
  match s with
  | EmptyString => None
  | String c s' =>
      match rsplit_at sep s' with
      | Some (a, b) => Some (String c a, b)
      | None => if Ascii.eqb c sep then Some (EmptyString, s') else None
      end
  end.

Definition rsplit1 (sep : ascii) (s : string) : list string :=
  match rsplit_at sep s with
  | Some (a, b) => [a; b]
  | None => [s]
  end.

(** [message.delivery_info['routing_key'].rsplit('.', 1)[1]] *)
Definition expected_method (msg : message) : res string :=
  match rsplit1 "."%char (routing_key msg) !! 1%nat with
  | Some m => Ok m
  | None => Raise (PyExc IndexError "list index out of range")
  end.

(** The test that makes a message a jsonrpc call:
    [isinstance(body, dict) and 'method' in body.keys() and
     body.get('method') == expected_method]. *)
Definition jsonrpc_call (body : json) (expected : string)
  : option (gmap string json) :=
  match body with
  | JDict d =>
      match d !! "method" with
      | Some (JStr m) => if String.eqb m expected then Some d else None
      | _ => None
      end
  | _ => None
  end.

(** What [*params] unpacks to on the positional path. *)
Definition star_args (fname : string) (params : json) : res (list json) :=
  match params with
  | JList l => Ok l
  | JStr s => Ok (chars s)
  | JDict d => Ok (JStr <$> (map_to_list d).*1)
  | other =>
      Raise (PyExc TypeError
               (fname ++ "() argument after * must be an iterable, not " ++
                type_name other))
  end.

(** The arguments of the call, from [body['params']]. *)
Definition call_args_of (fname : string) (d : gmap string json)
  : res call_args :=
  match getitem d "params" with
  | Raise e => Raise e
  | Ok (JDict kw) => Ok (ArgsKw kw)
  | Ok params =>
      match star_args fname params with
      | Ok pos => Ok (ArgsPos pos)
      | Raise e => Raise e
      end
  end.

(** The body of the [try]: resolve [on_<method>], then call it. *)
Definition call_method (svc : service) (d : gmap string json) (m : string)
    (msg : message) : M json :=
  let* method := lift (getattr svc ("on_" ++ m)) in
  let* args := lift (call_args_of ("on_" ++ m) d) in
  emit (EvCall ("on_" ++ m) args) ;;;
  lift (method msg args).

(** The error object of the [except] clause. *)
Definition error_object (code : Z) (error : pyexc) : json :=
  JDict {[ "code" := JNum code;
           "message" := JStr (exc_text error);
           "data" := JDict {[ "exception" :=
                                JStr (class_str (exc_class error)) ]} ]}.

(** The [except Exception as error] clause. *)
Definition error_result (d : gmap string json) (error : pyexc) : res json :=
  let jsonrpc_error_code :=
    if bool_decide (exc_class error = AttributeError)
    then (-32601)%Z else (-32600)%Z in
  match getitem d "id" with
  | Ok id =>
      Ok (JDict {[ "jsonrpc" := JStr "2.0";
                   "id" := id;
                   "error" := error_object jsonrpc_error_code error ]})
  | Raise e => Raise e
  end.

(** The [try ... except] statement: the value of [result] after it. *)
Definition dispatch (svc : service) (d : gmap string json) (m : string)
    (msg : message) : M json :=
  try_except (call_method svc d m msg)
             (fun error => lift (error_result d error)).

(** [if message.properties.get('reply_to'):], the address when truthy. *)
Definition reply_address (msg : message) : option string :=
  match reply_to msg with
  | Some EmptyString => None
  | other => other
  end.

(** What is put on the reply queue. *)
Definition reply_payload (result : json) : json :=
  JDict {[ "result" := result ]}.

(** [CommissaireService._wrap_on_message] *)
Definition _wrap_on_message (svc : service) (body : json) (msg : message)
  : M unit :=
  let* expected := lift (expected_method msg) in
  match jsonrpc_call body expected with
  | Some d =>
      let* result := dispatch svc d expected msg in
      (* the debug line formats body['id'] *)
      let* _ := lift (getitem d "id") in
      message_ack msg ;;;
      match reply_address msg with
      | Some address =>
          let* response_queue := SimpleQueue address default_queue_opts in
          queue_put response_queue (reply_payload result) ;;;
          queue_close response_queue
      | None => ret tt
      end
  | None => svc_on_message svc body msg
  end.

(** The [queue_opts] keyword that [respond] and [request] take among
    their [**kwargs], when the caller gives one: a dict over the keys
    [auto_delete] and [durable], by the keys it sets. *)
Record queue_opts_update := QueueOptsUpdate {
  set_auto_delete : option bool;
  set_durable : option bool
}.

(** [bool(kwargs.get('queue_opts'))]: a dict is true when it holds a
    key. *)
Definition sets_a_key (u : queue_opts_update) : bool :=
  match set_auto_delete u, set_durable u with
  | None, None => false
  | _, _ => true
  end.

(** [queue_opts.update(kwargs.pop('queue_opts'))] *)
Definition update_queue_opts (o : queue_opts) (u : queue_opts_update)
  : queue_opts :=
  {| auto_delete := default (auto_delete o) (set_auto_delete u);
     durable := default (durable o) (set_durable u) |}.

(** The options of a [SimpleQueue] made with these keywords. *)
Definition queue_opts_of (kwargs_queue_opts : option queue_opts_update)
  : queue_opts :=
  match kwargs_queue_opts with
  | Some u => update_queue_opts default_queue_opts u
  | None => default_queue_opts
  end.

(** [CommissaireService.respond] *)
Definition respond (queue_name : string) (id : json) (payload : json)
    (kwargs_queue_opts : option queue_opts_update) : M unit :=
  let* send_queue := SimpleQueue queue_name (queue_opts_of kwargs_queue_opts) in
  queue_put send_queue
    (JDict {[ "jsonrpc" := JStr "2.0"; "id" := id; "result" := payload ]}) ;;;
  queue_close send_queue.

(** [CommissaireService.create_id]: [str(uuid.uuid4())] *)
Definition create_id : M string :=
  fun w => (Ok (w_uuid w (w_uuid_next w)),
            World (w_queues w) (w_inbox w) (w_uuid w) (S (w_uuid_next w))
                  (w_trace w)).

(** [producer.publish(msg, routing_key, declare=[exchange], reply_to=q)] *)
Definition publish (payload : json) (routing_key : string) (reply_to : string)
  : M unit :=
  emit (EvPublish routing_key payload reply_to).

(** [result.payload.keys()] *)
Definition payload_keys (payload : json) : res (list string) :=
  match payload with
  | JDict d => Ok (map_to_list d).*1
  | other =>
      Raise (PyExc AttributeError
               ("'" ++ type_name other ++
                "' object has no attribute 'keys'"))
  end.

(** The [jsonrpc_msg] of [request]. *)
Definition jsonrpc_msg (id method : string) (params : json) : json :=
  JDict {[ "jsonrpc" := JStr "2.0";
           "id" := JStr id;
           "method" := JStr method;
           "params" := params ]}.

(** [CommissaireService.request] *)
Definition request (routing_key method : string) (params : json)
    (kwargs_queue_opts : option queue_opts_update) : M json :=
  let* id := create_id in
  let response_queue_name := "response-" ++ id in
  let queue_opts := {| auto_delete := true; durable := false |} in
  let* queue_opts :=
    match kwargs_queue_opts with
    | Some u =>
        if sets_a_key u then ret (update_queue_opts queue_opts u)
        else
          (* an empty dict is not popped from kwargs, and
             SimpleQueue(name, queue_opts=queue_opts, **kwargs) is
             given queue_opts twice *)
          raise (PyExc TypeError
                   ("SimpleQueue() got multiple values for keyword " ++
                    "argument 'queue_opts'"))
    | None => ret queue_opts
    end in
  let* response_queue := SimpleQueue response_queue_name queue_opts in
  let jsonrpc_msg := jsonrpc_msg id method params in
  publish jsonrpc_msg routing_key response_queue_name ;;;
  let* '(result, response_queue) := queue_get response_queue 3 in
  emit (EvAckReply (sq_name response_queue)) ;;;
  (* the test of the warning reads result.payload.keys() *)
  let* _ := lift (payload_keys result) in
  queue_close response_queue ;;;
  ret result.

End CommissaireService.

(* ================================================================= *)
(** ** [ServiceManager]: the supervisor *)

Module ServiceManager.

(** The manager, as far as [run] reads and writes it.  A task (the
    [AsyncResult] of one [apply_async]) is named by the rank of its
    launch; [warned] counts the replacement warnings logged. *)
Record manager := Manager {
  _process_count : nat;
  _asyncs : list nat;
  launched : nat;
  warned : nat
}.

(** [ServiceManager.__init__]: [multiprocessing.Pool(n, ...)] refuses a
    pool of no process. *)
Definition __init__ (process_count : nat) : res manager :=
  match process_count with
  | 0 => Raise (PyExc ValueError "Number of processes must be at least 1")
  | _ =>
      Ok {| _process_count := process_count; _asyncs := [];
            launched := 0; warned := 0 |}
  end.

(** [ServiceManager._start_process] *)
Definition _start_process (st : manager) : manager :=
  {| _process_count := _process_count st;
     _asyncs := _asyncs st ++ [launched st];
     launched := S (launched st);
     warned := warned st |}.

(** [l.index(x)] *)
Fixpoint index (x : nat) (l : list nat) : res nat :=
  match l with
  | [] => Raise (PyExc ValueError "ApplyResult is not in list")
  | y :: l' =>
      if bool_decide (y = x) then Ok 0
      else match index x l' with
           | Ok i => Ok (S i)
           | Raise e => Raise e
           end
  end.

(** The body of the [for] loop on a task found ready. *)
Definition replace (process_result : nat) (st : manager) : res manager :=
  match index process_result (_asyncs st) with
  | Raise e => Raise e
  | Ok idx =>
      Ok (_start_process
            {| _process_count := _process_count st;
               _asyncs := delete idx (_asyncs st);        (* pop(idx) *)
               launched := launched st;
               warned := S (warned st) |})
  end.

(** [for process_result in self._asyncs: ...]: the list iterator holds a
    position [i] into the list, which the body changes in place; the
    loop ends when the position is past the end.  [n] bounds the number
    of iterations. *)
Fixpoint for_asyncs (ready : nat -> bool) (n i : nat) (st : manager)
  : res manager :=
  match n with
  | 0 => Ok st
  | S n' =>
      match _asyncs st !! i with
      | None => Ok st
      | Some process_result =>
          if ready process_result then
            match replace process_result st with
            | Ok st' => for_asyncs ready n' (S i) st'
            | Raise e => Raise e
            end
          else for_asyncs ready n' (S i) st
      end
  end.

(** One turn of the [while True] loop: a pass over the tasks (followed
    by [sleep(1)]), with [ready] telling which tasks are complete. *)
Definition poll (ready : nat -> bool) (st : manager) : res manager :=
  for_asyncs ready (length (_asyncs st)) 0 st.

(** [for x in range(0, self._process_count): self._start_process()] *)
Fixpoint launch (n : nat) (st : manager) : manager :=
  match n with
  | 0 => st
  | S n' => launch n' (_start_process st)
  end.

(** The turns of the [while True] loop, one per element of [polls]. *)
Fixpoint polls_from (polls : list (nat -> bool)) (st : manager)
  : res manager :=
  match polls with
  | [] => Ok st
  | ready :: rest =>
      match poll ready st with
      | Ok st' => polls_from rest st'
      | Raise e => Raise e
      end
  end.

(** [ServiceManager.run], up to the end of the turns in [polls]. *)
Definition run (self : manager) (polls : list (nat -> bool)) : res manager :=
  polls_from polls (launch (_process_count self) self).

(** What [run] maintains: as many tasks tracked as processes asked for,
    all distinct and launched, and one launch per process plus one per
    replacement. *)
Definition pool_invariant (st : manager) : Prop :=
  length (_asyncs st) = _process_count st /\
  NoDup (_asyncs st) /\
  Forall (fun t => t < launched st) (_asyncs st) /\
  launched st = _process_count st + warned st.

End ServiceManager.

(* ================================================================= *)
(** ** [fnmatch], as [StorageService] uses it *)

Module fnmatch.

(** What a pattern is made of: [*], [?], a bracket expression (negated
    by a leading [!]; single characters and ranges) or a character that
    stands for itself. *)
Inductive item :=
  | One (c : ascii)
  | Range (lo hi : ascii).

Inductive token :=
  | Star
  | AnyChar
  | Class (negated : bool) (items : list item)
  | Lit (c : ascii).

(** The bracket expression that opens a pattern, if one is closed: what
    is between the brackets and what follows.  The [first] positions
    are read over without ending the expression (a leading [!], then a
    leading closing bracket). *)
Fixpoint until_bracket (s : string) : option (string * string) :=
  match s with
  | EmptyString => None
  | String c s' =>
      if Ascii.eqb c "]" then Some (EmptyString, s')
      else match until_bracket s' with
           | Some (a, b) => Some (String c a, b)
           | None => None
           end
  end.

Definition skip_one (c : ascii) (s : string) : string * string :=
  match s with
  | String c' s' =>
      if Ascii.eqb c' c then (String c' EmptyString, s') else (EmptyString, s)
  | EmptyString => (EmptyString, s)
  end.

Definition bracket (s : string) : option (string * string) :=
  let '(bang, s1) := skip_one "!" s in
  let '(close, s2) := skip_one "]" s1 in
  match until_bracket s2 with
  | Some (a, b) => Some (bang ++ close ++ a, b)
  | None => None
  end.

(** The members of a bracket expression, as the regular expression the
    pattern is translated to reads them; a range whose bounds are out of
    order does not compile. *)
Fixpoint class_items (n : nat) (s : string) : res (list item) :=
  match n with
  | 0 => Ok []
  | S n' =>
      match s with
      | EmptyString => Ok []
      | String lo (String "-" (String hi rest)) =>
          if (nat_of_ascii hi <? nat_of_ascii lo)%nat then
            Raise (PyExc (PyClass "sre_constants" "error")
                     ("bad character range " ++
                      String lo (String "-" (String hi EmptyString))))
          else
            match class_items n' rest with
            | Ok items => Ok (Range lo hi :: items)
            | Raise e => Raise e
            end
      | String c rest =>
          match class_items n' rest with
          | Ok items => Ok (One c :: items)
          | Raise e => Raise e
          end
      end
  end.

Definition class_of (stuff : string) : res token :=
  match stuff with
  | String "!" rest =>
      match class_items (String.length rest) rest with
      | Ok items => Ok (Class true items)
      | Raise e => Raise e
      end
  | _ =>
      match class_items (String.length stuff) stuff with
      | Ok items => Ok (Class false items)
      | Raise e => Raise e
      end
  end.

(** [fnmatch.translate]; [n] bounds the number of tokens. *)
Fixpoint translate (n : nat) (pat : string) : res (list token) :=
  match n with
  | 0 => Ok []
  | S n' =>
      match pat with
      | EmptyString => Ok []
      | String c rest =>
          let continue (t : token) (rest : string) :=
            match translate n' rest with
            | Ok ts => Ok (t :: ts)
            | Raise e => Raise e
            end in
          if Ascii.eqb c "*" then continue Star rest
          else if Ascii.eqb c "?" then continue AnyChar rest
          else if Ascii.eqb c "[" then
            match bracket rest with
            | None => continue (Lit c) rest
            | Some (stuff, rest') =>
                match class_of stuff with
                | Ok t => continue t rest'
                | Raise e => Raise e
                end
            end
          else continue (Lit c) rest
      end
  end.

Definition item_has (c : ascii) (i : item) : bool :=
  match i with
  | One c' => Ascii.eqb c c'
  | Range lo hi =>
      (nat_of_ascii lo <=? nat_of_ascii c)%nat &&
      (nat_of_ascii c <=? nat_of_ascii hi)%nat
  end.

(** Does the token (other than [*]) accept the character? *)
Definition accepts (t : token) (c : ascii) : bool :=
  match t with
  | Star | AnyChar => true
  | Class negated items => xorb negated (existsb (item_has c) items)
  | Lit c' => Ascii.eqb c c'
  end.

(** The translated pattern matches the whole name. *)
Fixpoint matches (ts : list token) (name : string) : bool :=
  match ts with
  | [] => match name with EmptyString => true | _ => false end
  | Star :: ts' =>
      (fix star (name : string) : bool :=
         matches ts' name ||
         match name with
         | EmptyString => false
         | String _ name' => star name'
         end) name
  | t :: ts' =>
      match name with
      | EmptyString => false
      | String c name' => accepts t c && matches ts' name'
      end
  end.

(** [fnmatch.filter(names, pat)] where path names keep their case. *)
Definition filter (names : list string) (pat : json) : res (list string) :=
  match pat with
  | JStr p =>
      match translate (String.length p) p with
      | Ok ts => Ok (List.filter (matches ts) names)
      | Raise e => Raise e
      end
  | other =>
      Raise (PyExc TypeError
               ("normcase() argument must be str or bytes, not '" ++
                type_name other ++ "'"))
  end.

End fnmatch.

Arguments fnmatch.filter : simpl never.

(* ================================================================= *)
(** ** [StoreHandlerManager] *)

#[global] Instance pyclass_countable : Countable pyclass :=
  inj_countable' (fun c => (cls_module c, cls_name c))
                 (fun p => PyClass p.1 p.2)
                 (fun c => match c with PyClass _ _ => eq_refl end).

Module StoreHandlerManager.

(** Modelled from the spec: [commissaire_service/storage/storehandlermanager.py]
    (the class [StoreHandlerManager]) is not among the sources.  The spec
    gives its interface, [register(handler_type, config, *model_types)]
    and [list_registrations() -> sequence<(handler_type, config,
    model_types)>], and says of the table that it is "append-only, from
    an ordered registration list" and that entries "both persist in the
    routing table, retrievable via list_store_handlers, in registration
    order". *)
Record registration := Registration {
  handler_type : pyclass;
  config : json;
  model_types : list pyclass
}.

(** Modelled from the spec: see [registration]. *)
Definition register_store_handler (manager : list registration)
    (handler_type : pyclass) (config : json) (model_types : list pyclass)
  : list registration :=
  manager ++ [Registration handler_type config model_types].

(** Modelled from the spec: see [registration]. *)
Definition list_store_handlers (manager : list registration)
  : list registration :=
  manager.

End StoreHandlerManager.

(* ================================================================= *)
(** ** [StorageService] *)

Module StorageService.

Import StoreHandlerManager.

(** The service, as far as the functions below read and write it. *)
Record storage := Storage {
  _model_types : gmap string pyclass;   (* type name -> model class *)
  _manager : list registration
}.

(** The double quote, for the texts that hold one. *)
Definition dq : string := String (ascii_of_nat 34) EmptyString.

(** What [for x in v] iterates over. *)
Definition iterate (v : json) : res (list json) :=
  match v with
  | JList l => Ok l
  | JStr s => Ok (chars s)
  | JDict d => Ok (JStr <$> (map_to_list d).*1)
  | other =>
      Raise (PyExc TypeError
               ("'" ++ type_name other ++ "' object is not iterable"))
  end.

Section Collaborators.

(** [import_plugin(name, 'commissaire.storage', StoreHandlerBase)],
    [repr(v)], [json.loads] and [model_type.new( **fields)]: the
    collaborators the service calls. *)
Variable import_plugin : json -> res pyclass.
Variable repr : json -> string.
Variable json_loads : string -> res json.
Variable model_new : pyclass -> gmap string json -> res json.

(** ['{}'.format(v)]: a string as it is, another value by its [repr]. *)
Definition format (v : json) : string :=
  match v with
  | JStr s => s
  | other => repr other
  end.

(** [[self._model_types[name] for name in names]] *)
Definition types_of (self : storage) (names : list string) : list pyclass :=
  omap (fun name => _model_types self !! name) names.

(** [self._model_types.keys()] *)
Definition catalog_names (self : storage) : list string :=
  (map_to_list (_model_types self)).*1.

(** The [for pattern in ...] loop of [register_store_handler]. *)
Fixpoint match_patterns (self : storage) (patterns : list json)
    (matched_types : gset pyclass) : res (gset pyclass) :=
  match patterns with
  | [] => Ok matched_types
  | pattern :: rest =>
      match fnmatch.filter (catalog_names self) pattern with
      | Raise e => Raise e
      | Ok [] =>
          Raise (PyExc ConfigurationError
                   ("No match for model: " ++ format pattern))
      | Ok matches =>
          match_patterns self rest
            (matched_types ∪ list_to_set (types_of self matches))
      end
  end.

(** [StorageService.register_store_handler]: the outcome, what the
    argument holds when the call ends, and the service. *)
Definition register_store_handler (self : storage) (config : json)
  : res unit * json * storage :=
  match config with
  | JDict d =>
      match d !! "name" with
      | None =>
          (Raise (PyExc ConfigurationError
                    ("Store handler configuration missing " ++ dq ++
                     "name" ++ dq ++ " key: " ++ format config)),
           config, self)
      | Some module_name =>
          let d := delete "name" d in                         (* pop *)
          match import_plugin module_name with
          | Raise e => (Raise e, JDict d, self)
          | Ok handler_type =>
              let models := default (JList [JStr "*"]) (d !! "models") in
              let d := delete "models" d in                   (* pop *)
              match iterate models with
              | Raise e => (Raise e, JDict d, self)
              | Ok patterns =>
                  match match_patterns self patterns ∅ with
                  | Raise e => (Raise e, JDict d, self)
                  | Ok matched_types =>
                      (Ok tt, JDict d,
                       {| _model_types := _model_types self;
                          _manager :=
                            StoreHandlerManager.register_store_handler
                              (_manager self) handler_type (JDict d)
                              (elements matched_types) |})
                  end
              end
          end
      end
  | other =>
      (Raise (PyExc ConfigurationError
                ("Store handler format must be a JSON object, got a " ++
                 type_name other ++ " instead: " ++ format other)),
       config, self)
  end.

(** The line and the column of position [pos] of [doc], counted from
    [line] and [col]. *)
Fixpoint line_column (doc : string) (pos line col : nat) : nat * nat :=
  match pos, doc with
  | S pos', String c doc' =>
      if Ascii.eqb c (ascii_of_nat 10)
      then line_column doc' pos' (S line) 1
      else line_column doc' pos' line (S col)
  | _, _ => (line, col)
  end.

(** [json.decoder.JSONDecodeError( *args)]: the class is built from a
    message, the document and a position, all three required. *)
Definition JSONDecodeError_new (args : list json) : res pyexc :=
  match args with
  | [JStr msg; JStr doc; JNum pos] =>
      let '(line, col) := line_column doc (Z.to_nat pos) 1 1 in
      Ok (PyExc JSONDecodeError
            (msg ++ ": line " ++ pretty line ++ " column " ++ pretty col ++
             " (char " ++ pretty pos ++ ")"))
  | [_] =>
      Raise (PyExc TypeError
               "__init__() missing 2 required positional arguments: 'doc' and 'pos'")
  | [_; _] =>
      Raise (PyExc TypeError
               "__init__() missing 1 required positional argument: 'pos'")
  | [] =>
      Raise (PyExc TypeError
               "__init__() missing 3 required positional arguments: 'msg', 'doc', and 'pos'")
  | [_; _; _] =>
      Raise (PyExc TypeError "expected str, str and int")
  | _ =>
      Raise (PyExc TypeError
               ("__init__() takes 4 positional arguments but " ++
                pretty (S (length args)) ++ " were given"))
  end.

(** [StorageService._build_model] *)
Definition _build_model (self : storage) (model_type_name : string)
    (model_json_data : json) : res json :=
  let parsed :=
    match model_json_data with
    | JStr s =>
        match json_loads s with
        | Raise e => Raise e
        | Ok (JDict d) => Ok (JDict d)
        | Ok _ =>
            match JSONDecodeError_new
                    [JStr "Model data expected to be a JSON object"] with
            | Ok error => Raise error
            | Raise e => Raise e
            end
        end
    | other => Ok other
    end in
  match parsed with
  | Raise e => Raise e
  | Ok model_json_data =>
      match _model_types self !! model_type_name with
      | None => Raise (key_error model_type_name)
      | Some model_type =>
          match model_json_data with
          | JDict fields => model_new model_type fields
          | other =>
              Raise (PyExc TypeError
                       ("new() argument after ** must be a mapping, not " ++
                        type_name other))
          end
      end
  end.

(** [StorageService.on_list_store_handlers] *)
Definition on_list_store_handlers (self : storage) : list json :=
  (fun '(Registration handler_type config model_types) =>
     let model_types := cls_name <$> model_types in
     let model_types := merge_sort String.le model_types in
     JDict {[ "handler_type" := JStr (cls_name handler_type);
              "config" := config;
              "model_types" := JList (JStr <$> model_types) ]})
  <$> StoreHandlerManager.list_store_handlers (_manager self).

(** The pattern matches a name of the catalog at least. *)
Definition has_match (self : storage) (pattern : string) : Prop :=
  exists matches,
    fnmatch.filter (catalog_names self) (JStr pattern) = Ok matches /\
    matches <> [].

(** The model type is the one of a name that the pattern matches. *)
Definition resolves (self : storage) (pattern : string) (c : pyclass)
  : Prop :=
  exists matches name,
    fnmatch.filter (catalog_names self) (JStr pattern) = Ok matches /\
    name ∈ matches /\ _model_types self !! name = Some c.

End Collaborators.

(** The manager after the registrations of [regs], in this order. *)
Definition registered (regs : list registration) : list registration :=
  foldl (fun manager r =>
           StoreHandlerManager.register_store_handler manager
             (handler_type r) (config r) (model_types r))
        [] regs.

(** The entry of [on_list_store_handlers] for a registration whose
    served names, in the order of the answer, are [names]. *)
Definition entry (r : registration) (names : list string) : json :=
  JDict {[ "handler_type" := JStr (cls_name (handler_type r));
           "config" := config r;
           "model_types" := JList (JStr <$> names) ]}.

End StorageService.

(* ================================================================= *)
(** ** Concrete services, messages and worlds *)

Module Samples.

Import CommissaireService.

(** A service with three handlers: [on_ping] returns ["pong"],
    [on_boom] raises [AttributeError("boom")] and [on_fail] raises
    [ValueError("bad value")]. *)
Definition sample_service : service :=
  {| svc_class := "SampleService";
     svc_attr := fun name =>
       if String.eqb name "on_ping" then
         Some (fun _ _ => Ok (JStr "pong"))
       else if String.eqb name "on_boom" then
         Some (fun _ _ => Raise (PyExc AttributeError "boom"))
       else if String.eqb name "on_fail" then
         Some (fun _ _ => Raise (PyExc ValueError "bad value"))
       else None;
     svc_on_message := on_message |}.

(** A broker with no queue, on which no reply ever arrives. *)
Definition quiet_world : world :=
  {| w_queues := ∅; w_inbox := ∅;
     w_uuid := fun n => "uuid-" ++ String (ascii_of_nat (48 + n)) EmptyString;
     w_uuid_next := 0; w_trace := [] |}.

(** The same broker, where a reply reaches the queue of the first call. *)
Definition answering_world (reply : json) : world :=
  {| w_queues := ∅; w_inbox := {[ "response-uuid-0" := [reply] ]};
     w_uuid := w_uuid quiet_world;
     w_uuid_next := 0; w_trace := [] |}.

(** [{"jsonrpc": "2.0", "id": 1, "method": m, "params": {}}] *)
Definition call_body (m : string) : gmap string json :=
  {[ "jsonrpc" := JStr "2.0"; "id" := JNum 1;
     "method" := JStr m; "params" := JDict ∅ ]}.

(** [{"method": m, "params": {}}]: the same call without its id. *)
Definition call_body_without_id (m : string) : gmap string json :=
  {[ "method" := JStr m; "params" := JDict ∅ ]}.

(** A message on [routing_key] that asks for the reply on [response-1]. *)
Definition inbound (routing_key : string) : message :=
  {| delivery_tag := 7; routing_key := routing_key;
     reply_to := Some "response-1" |}.

(** The model types of the example of the spec. *)
Definition model_class (name : string) : pyclass :=
  PyClass "commissaire.models" name.

Definition sample_storage : StorageService.storage :=
  {| StorageService._model_types :=
       {[ "NodeModel" := model_class "NodeModel";
          "NetworkModel" := model_class "NetworkModel";
          "ClusterModel" := model_class "ClusterModel" ]};
     StorageService._manager := [] |}.

(** The two entries of the example of the spec. *)
Definition node_entry : gmap string json :=
  {[ "name" := JStr "X"; "models" := JList [JStr "Node*"] ]}.
Definition no_such_entry : gmap string json :=
  {[ "name" := JStr "X"; "models" := JList [JStr "NoSuchPrefix*"] ]}.

(** An entry with settings of its own and no [models] key. *)
Definition etcd_entry : gmap string json :=
  {[ "name" := JStr "etcd"; "server_url" := JStr "http://127.0.0.1:2379" ]}.

(** [import_plugin] where every name of a plugin is a string and
    resolves to the class of that name. *)
Definition sample_import_plugin (name : json) : res pyclass :=
  match name with
  | JStr n => Ok (PyClass "commissaire.storage" n)
  | _ => Raise (PyExc TypeError "the name of a plugin is a string")
  end.

(** [repr] on the values the examples print. *)
Definition sample_repr (v : json) : string :=
  match v with
  | JStr s => "'" ++ s ++ "'"
  | JNull => "None"
  | JList [] => "[]"
  | JDict _ => "{...}"
  | _ => "..."
  end.

(** [json.loads] on the documents the examples parse. *)
Definition sample_json_loads (s : string) : res json :=
  if String.eqb s "[]" then Ok (JList [])
  else if String.eqb s "{}" then Ok (JDict ∅)
  else if String.eqb s "null" then Ok JNull
  else Raise (PyExc JSONDecodeError
                "Expecting value: line 1 column 1 (char 0)").

(** [model_type.new( **fields)] that keeps the fields it is given. *)
Definition sample_model_new (model_type : pyclass) (fields : gmap string json)
  : res json :=
  Ok (JDict fields).

End Samples.

(* ================================================================= *)
(** ** Reading responses and traces *)

Module Observe.

Import CommissaireService.

(** The fields of an error response. *)
Fixpoint jpath (keys : list string) (v : json) : option json :=
  match keys with
  | [] => Some v
  | k :: keys' =>
      match jget k v with
      | Some v' => jpath keys' v'
      | None => None
      end
  end.

Definition error_code : json -> option json := jpath ["error"; "code"].
Definition error_message : json -> option json := jpath ["error"; "message"].
Definition error_exception : json -> option json :=
  jpath ["error"; "data"; "exception"].

(** The world after one more event. *)
Definition after (w : world) (evs : list event) : world :=
  World (w_queues w) (w_inbox w) (w_uuid w) (w_uuid_next w)
        (w_trace w ++ evs).

(** What was put on queues, in order. *)
Definition published (trace : list event) : list (string * json) :=
  omap (fun e => match e with EvPut q p => Some (q, p) | _ => None end) trace.

(** The handlers that were invoked, in order. *)
Definition invoked (trace : list event) : list string :=
  omap (fun e => match e with EvCall a _ => Some a | _ => None end) trace.

(** How many times the inbound message was acknowledged. *)
Definition is_ack (e : event) : bool :=
  match e with EvAck _ => true | _ => false end.
Definition acks (trace : list event) : nat :=
  length (List.filter is_ack trace).

(** The queues that were closed, in order. *)
Definition closed (trace : list event) : list string :=
  omap (fun e => match e with EvClose q => Some q | _ => None end) trace.

(** What the engine does to answer a message once [result] is known. *)
Definition answer_events (msg : message) (result : json) : list event :=
  EvAck (delivery_tag msg) ::
  match reply_address msg with
  | Some address =>
      [EvDeclare address default_queue_opts;
       EvPut address (reply_payload result);
       EvClose address]
  | None => []
  end.

(** The options of the reply queue when the caller gives none. *)
Definition reply_queue_opts : queue_opts :=
  {| auto_delete := true; durable := false |}.

(** The sentence of the spec on dispatch errors, as it is written: with
    no handler the error response carries -32601 and the world is as
    before; when the handler raises, it carries -32600, the text of the
    exception and the name of its type. *)
Definition dispatch_errors_as_stated : Prop :=
  forall svc d m msg w,
    (svc_attr svc ("on_" ++ m) = None ->
     exists r, dispatch svc d m msg w = (Ok r, w) /\
       error_code r = Some (JNum (-32601))) /\
    (forall h args e,
       svc_attr svc ("on_" ++ m) = Some h ->
       call_args_of ("on_" ++ m) d = Ok args ->
       h msg args = Raise e ->
       exists r w', dispatch svc d m msg w = (Ok r, w') /\
         error_code r = Some (JNum (-32600)) /\
         error_message r = Some (JStr (exc_text e)) /\
         error_exception r = Some (JStr (cls_name (exc_class e)))).

End Observe.

(* ================================================================= *)
(** ** How a method is called *)

Module PyCall.

(** The names, as the message of a missing argument lists them. *)
Fixpoint comma_names (names : list string) : string :=
  match names with
  | [] => ""
  | [last] => "and '" ++ last ++ "'"
  | name :: rest => "'" ++ name ++ "', " ++ comma_names rest
  end.

Definition names_text (names : list string) : string :=
  match names with
  | [a] => "'" ++ a ++ "'"
  | [a; b] => "'" ++ a ++ "' and '" ++ b ++ "'"
  | _ => comma_names names
  end.

(** The required parameters that the keywords [kw] leave without a
    value. *)
Definition missing (params : list string) (kw : gmap string json)
  : list string :=
  List.filter (fun p => negb (bool_decide (p ∈ dom kw))) params.

(** The keywords of [kw] that are no parameter. *)
Definition unexpected (params : list string) (kw : gmap string json)
  : list string :=
  List.filter (fun k => negb (bool_decide (k ∈ params))) (map_to_list kw).*1.

Definition missing_error (fname : string) (names : list string) : pyexc :=
  PyExc TypeError
    (fname ++ "() missing " ++ pretty (length names) ++
     " required positional argument" ++
     (if bool_decide (length names = 1) then "" else "s") ++ ": " ++
     names_text names).

(** The arguments of [def fname(self, message, p1, ..., pn)], for the
    parameters [params] after [message], as the engine calls it:
    [method(message=message, **kw)] or [method( *pos, message=message)].
    On the second form a first positional value takes the place of
    [message], which the keyword then gives again. *)
Definition bind_args (fname : string) (params : list string)
    (args : call_args) : res (gmap string json) :=
  match args with
  | ArgsKw kw =>
      if bool_decide ("message" ∈ dom kw) then
        Raise (PyExc TypeError
                 (fname ++
                  "() got multiple values for keyword argument 'message'"))
      else
        match unexpected params kw with
        | k :: _ =>
            Raise (PyExc TypeError
                     (fname ++ "() got an unexpected keyword argument '" ++
                      k ++ "'"))
        | [] =>
            match missing params kw with
            | [] => Ok kw
            | names => Raise (missing_error fname names)
            end
        end
  | ArgsPos [] =>
      match params with
      | [] => Ok ∅
      | names => Raise (missing_error fname names)
      end
  | ArgsPos (_ :: _) =>
      Raise (PyExc TypeError
               (fname ++ "() got multiple values for argument 'message'"))
  end.

(** The method, as the handler the engine calls: the arguments are
    bound, then the body runs on them. *)
Definition method (fname : string) (params : list string)
    (body : message -> gmap string json -> res json)
  : CommissaireService.handler :=
  fun msg args =>
    match bind_args fname params args with
    | Ok bound => body msg bound
    | Raise e => Raise e
    end.

(** A bound argument. *)
Definition arg (bound : gmap string json) (name : string) : json :=
  default JNull (bound !! name).

End PyCall.

(* ================================================================= *)
(** ** [StorageService]: construction and the handlers of the bus *)

Module StorageRPC.

Import StoreHandlerManager StorageService.

(** [len(v)] *)
Definition len (v : json) : res nat :=
  match v with
  | JList l => Ok (length l)
  | JStr s => Ok (String.length s)
  | JDict d => Ok (size d)
  | other =>
      Raise (PyExc TypeError
               ("object of type '" ++ type_name other ++ "' has no len()"))
  end.

(** [self._model_types[name]] for a name of any type. *)
Definition lookup_model_type (self : storage) (name : json) : res pyclass :=
  match name with
  | JStr s =>
      match _model_types self !! s with
      | Some model_type => Ok model_type
      | None => Raise (key_error s)
      end
  | JNull => Raise (PyExc KeyError "None")
  | JBool b => Raise (PyExc KeyError (if b then "True" else "False"))
  | JNum z => Raise (PyExc KeyError (pretty z))
  | other =>
      Raise (PyExc TypeError ("unhashable type: '" ++ type_name other ++ "'"))
  end.

Section Collaborators.

(** The collaborators of [StorageService] (see there), [to_dict] of a
    model, and the manager's operations on the stores, whose state is
    [store]. *)
Variable import_plugin : json -> res pyclass.
Variable repr : json -> string.
Variable json_loads : string -> res json.
Variable model_new : pyclass -> gmap string json -> res json.
Variable to_dict : json -> json.
Variable store : Type.
Variable manager_save : store -> json -> res json * store.
Variable manager_get : store -> json -> res json * store.
Variable manager_delete : store -> json -> res unit * store.
Variable manager_list : store -> json -> res (list json) * store.

(** The [for config in store_handlers] loop of [__init__]: the outcome
    and what the entries hold when the loop ends. *)
Fixpoint register_all (self : storage) (configs : list json)
  : res storage * list json :=
  match configs with
  | [] => (Ok self, [])
  | config :: rest =>
      match register_store_handler import_plugin repr self config with
      | (Ok _, config', self') =>
          let '(r, rest') := register_all self' rest in
          (r, config' :: rest')
      | (Raise e, config', _) => (Raise e, config' :: rest)
      end
  end.

(** [StorageService.__init__], once the bus is set up: from the model
    types found in [commissaire.models], what [read_config_file]
    returned and what [C.DEFAULT_ETCD_STORE_HANDLER] holds, the service
    (its manager starts with no registration) and what the entries that
    were iterated over hold afterwards. *)
Definition __init__ (model_types : gmap string pyclass) (config_data : json)
    (DEFAULT_ETCD_STORE_HANDLER : json) : res storage * list json :=
  let self := {| _model_types := model_types; _manager := [] |} in
  match config_data with
  | JDict data =>
      let store_handlers := default (JList []) (data !! "storage_handlers") in
      match len store_handlers with
      | Raise e => (Raise e, [])
      | Ok n =>
          let store_handlers :=
            if bool_decide (n = 0) then Ok [DEFAULT_ETCD_STORE_HANDLER]
            else iterate store_handlers in
          match store_handlers with
          | Raise e => (Raise e, [])
          | Ok configs => register_all self configs
          end
      end
  | other =>
      (Raise (PyExc AttributeError
                ("'" ++ type_name other ++
                 "' object has no attribute 'get'")), [])
  end.

(** What [_build_model] does of its data before it looks the type up. *)
Definition parse_model_data (model_json_data : json) : res json :=
  match model_json_data with
  | JStr s =>
      match json_loads s with
      | Raise e => Raise e
      | Ok (JDict d) => Ok (JDict d)
      | Ok _ =>
          match JSONDecodeError_new
                  [JStr "Model data expected to be a JSON object"] with
          | Ok error => Raise error
          | Raise e => Raise e
          end
      end
  | other => Ok other
  end.

(** [self._build_model(model_type_name, model_json_data)] on the
    arguments of a call, the type name being a string or not. *)
Definition build (self : storage) (model_type_name model_json_data : json)
  : res json :=
  match model_type_name with
  | JStr name => _build_model json_loads model_new self name model_json_data
  | other =>
      match parse_model_data model_json_data with
      | Raise e => Raise e
      | Ok model_json_data =>
          match lookup_model_type self other with
          | Raise e => Raise e
          | Ok model_type =>
              match model_json_data with
              | JDict fields => model_new model_type fields
              | other =>
                  Raise (PyExc TypeError
                           ("new() argument after ** must be a mapping, not " ++
                            type_name other))
              end
          end
      end
  end.

(** [StorageService.on_save] *)
Definition on_save (self : storage) (st : store)
    (model_type_name model_json_data : json) : res json * store :=
  match build self model_type_name model_json_data with
  | Raise e => (Raise e, st)
  | Ok model_instance =>
      match manager_save st model_instance with
      | (Ok saved_model_instance, st') => (Ok (to_dict saved_model_instance), st')
      | (Raise e, st') => (Raise e, st')
      end
  end.

(** [StorageService.on_get] *)
Definition on_get (self : storage) (st : store)
    (model_type_name model_json_data : json) : res json * store :=
  match build self model_type_name model_json_data with
  | Raise e => (Raise e, st)
  | Ok model_instance =>
      match manager_get st model_instance with
      | (Ok full_model_instance, st') => (Ok (to_dict full_model_instance), st')
      | (Raise e, st') => (Raise e, st')
      end
  end.

(** [StorageService.on_delete]: the handler returns [None]. *)
Definition on_delete (self : storage) (st : store)
    (model_type_name model_json_data : json) : res json * store :=
  match build self model_type_name model_json_data with
  | Raise e => (Raise e, st)
  | Ok model_instance =>
      match manager_delete st model_instance with
      | (Ok _, st') => (Ok JNull, st')
      | (Raise e, st') => (Raise e, st')
      end
  end.

(** [StorageService.on_list] *)
Definition on_list (self : storage) (st : store) (model_type_name : json)
  : res json * store :=
  match lookup_model_type self model_type_name with
  | Raise e => (Raise e, st)
  | Ok model_type =>
      match model_new model_type ∅ with
      | Raise e => (Raise e, st)
      | Ok template =>
          match manager_list st template with
          | (Ok model_list, st') => (Ok (JList (to_dict <$> model_list)), st')
          | (Raise e, st') => (Raise e, st')
          end
      end
  end.

(** The five handlers, as the engine finds them on the service whose
    stores are in state [st]: what a call of each yields. *)
Definition on_save_method (self : storage) (st : store)
  : CommissaireService.handler :=
  PyCall.method "on_save" ["model_type_name"; "model_json_data"]
    (fun _ bound =>
       (on_save self st (PyCall.arg bound "model_type_name")
          (PyCall.arg bound "model_json_data")).1).

Definition on_get_method (self : storage) (st : store)
  : CommissaireService.handler :=
  PyCall.method "on_get" ["model_type_name"; "model_json_data"]
    (fun _ bound =>
       (on_get self st (PyCall.arg bound "model_type_name")
          (PyCall.arg bound "model_json_data")).1).

Definition on_delete_method (self : storage) (st : store)
  : CommissaireService.handler :=
  PyCall.method "on_delete" ["model_type_name"; "model_json_data"]
    (fun _ bound =>
       (on_delete self st (PyCall.arg bound "model_type_name")
          (PyCall.arg bound "model_json_data")).1).

Definition on_list_method (self : storage) (st : store)
  : CommissaireService.handler :=
  PyCall.method "on_list" ["model_type_name"]
    (fun _ bound => (on_list self st (PyCall.arg bound "model_type_name")).1).

Definition on_list_store_handlers_method (self : storage)
  : CommissaireService.handler :=
  PyCall.method "on_list_store_handlers" []
    (fun _ _ => Ok (JList (on_list_store_handlers self))).

(** The handlers of [StorageService], by the name of the attribute. *)
Definition handlers (self : storage) (st : store)
  : list (string * CommissaireService.handler) :=
  [("on_save", on_save_method self st);
   ("on_get", on_get_method self st);
   ("on_delete", on_delete_method self st);
   ("on_list", on_list_method self st);
   ("on_list_store_handlers", on_list_store_handlers_method self)].

End Collaborators.

End StorageRPC.

(* ================================================================= *)
(** ** [transport/ansible_wrapper.py] *)

Module ansible_wrapper.

Definition AnsibleParserError : pyclass :=
  PyClass "ansible.errors" "AnsibleParserError".
Definition AnsibleOptionsError : pyclass :=
  PyClass "ansible.errors" "AnsibleOptionsError".

(** [sep.join(l)] *)
Fixpoint join (sep : string) (l : list string) : string :=
  match l with
  | [] => ""
  | [x] => x
  | x :: rest => x ++ sep ++ join sep rest
  end.

(** The items of a sequence that [join] takes: strings all. *)
Fixpoint str_items (i : nat) (l : list json) : res (list string) :=
  match l with
  | [] => Ok []
  | JStr s :: rest =>
      match str_items (S i) rest with
      | Ok items => Ok (s :: items)
      | Raise e => Raise e
      end
  | other :: _ =>
      Raise (PyExc TypeError
               ("sequence item " ++ pretty i ++ ": expected str instance, " ++
                type_name other ++ " found"))
  end.

(** A record of the [transport] logger: its level and its text. *)
Inductive level := INFO | ERROR.
Definition log_record : Type := level * string.

Section Collaborators.

(** [iter(d)] on a dict (its keys in the order of their insertion, which
    the finite map does not record), [os.path.realpath],
    [PlaybookCLI(cli_args).parse()] and [.run()] on the arguments the
    object was made with, and [issubclass]. *)
Variable dict_iter : gmap string json -> list string.
Variable realpath : string -> string.
Variable cli_parse : list string -> res unit.
Variable cli_run : list string -> res Z.
Variable issubclass : pyclass -> pyclass -> bool.

(** The value given to [--inventory-file]: the host, or the hosts
    joined by commas, and a trailing comma. *)
Definition inventory (hosts : json) : res string :=
  match hosts with
  | JStr s => Ok (s ++ ",")
  | JList l =>
      match str_items 0 l with
      | Ok items => Ok (join "," items ++ ",")
      | Raise e => Raise e
      end
  | JDict d => Ok (join "," (dict_iter d) ++ ",")
  | other =>
      Raise (PyExc AnsibleParserError
               ("Can not parse hosts of type " ++
                class_str (PyClass "builtins" (type_name other))))
  end.

Definition cli_args (playbook : string) (hosts : string) (args : list string)
  : list string :=
  (["playbook"] ++ args ++ ["--inventory-file"; hosts] ++
   [realpath playbook])%list.

(** [except (AnsibleParserError, AnsibleOptionsError) as error]: the
    error is logged, then raised again; an error of another class passes
    the clause by.  [log] is what the function has logged so far. *)
Definition logged (error : pyexc) (log : list log_record)
  : res Z * list log_record :=
  if issubclass (exc_class error) AnsibleParserError ||
     issubclass (exc_class error) AnsibleOptionsError
  then
    (Raise error,
     (log ++ [(ERROR, (class_str (exc_class error) ++ ": " ++
                       exc_text error)%string)])%list)
  else (Raise error, log).

(** [execute_playbook]: the status code that [run] returns, and the
    records the function itself gives to the logger. *)
Definition execute_playbook (playbook : string) (hosts : json)
    (args : list string) : res Z * list log_record :=
  match inventory hosts with
  | Raise e => (Raise e, [])
  | Ok hosts =>
      let cli_args := cli_args playbook hosts args in
      let log := [(INFO, "Executing: " ++ join " " cli_args)] in
      match cli_parse cli_args with
      | Raise error => logged error log
      | Ok _ =>
          match cli_run cli_args with
          | Ok code => (Ok code, log)
          | Raise error => logged error log
          end
      end
  end.

End Collaborators.

(** [s.split(sep)] for a separator of one character. *)
Fixpoint split (sep : ascii) (s : string) : list string :=
  match s with
  | EmptyString => [EmptyString]
  | String c s' =>
      if Ascii.eqb c sep then EmptyString :: split sep s'
      else match split sep s' with
           | first :: rest => String c first :: rest
           | [] => [String c EmptyString]
           end
  end.

End ansible_wrapper.

(* ================================================================= *)
(** ** More to read from bodies and traces *)

Module Observe2.

(** The [params] of a body from which no arguments can be taken: none,
    or a value that is neither a mapping nor iterable. *)
Definition unusable_params (d : gmap string json) : Prop :=
  match d !! "params" with
  | None | Some JNull | Some (JBool _) | Some (JNum _) => True
  | _ => False
  end.

(** What was put on the queue [q], in order. *)
Definition delivered (q : string) (trace : list event) : list json :=
  omap (fun e => match e with
                 | EvPut q' payload =>
                     if String.eqb q q' then Some payload else None
                 | _ => None
                 end) trace.

(** The queues that were declared, with their options, in order. *)
Definition declared (trace : list event) : list (string * queue_opts) :=
  omap (fun e => match e with EvDeclare q o => Some (q, o) | _ => None end)
       trace.

End Observe2.

(* ================================================================= *)
(** ** More concrete values *)

Module Samples2.

Import Samples.

(** A store that keeps the models saved, latest first. *)
Definition sample_save (st : list json) (model : json)
  : res json * list json :=
  (Ok model, model :: st).
Definition sample_get (st : list json) (model : json)
  : res json * list json :=
  (Ok model, st).
Definition sample_delete (st : list json) (model : json)
  : res unit * list json :=
  (Ok tt, st).
Definition sample_list (st : list json) (template : json)
  : res (list json) * list json :=
  (Ok st, st).

(** The default entry, as a configuration would give it. *)
Definition default_entry : gmap string json :=
  {[ "name" := JStr "commissaire.storage.etcd";
     "server_url" := JStr "http://127.0.0.1:2379";
     "models" := JList [JStr "*"] ]}.

(** An entry whose list of patterns is empty. *)
Definition no_pattern_entry : gmap string json :=
  {[ "name" := JStr "X"; "models" := JList [] ]}.

(** A service whose [on_list_store_handlers] is the one of a
    [StorageService] with the [Node*] entry registered. *)
Definition listing_storage : StorageService.storage :=
  (StorageService.register_store_handler sample_import_plugin sample_repr
     sample_storage (JDict node_entry)).2.

Definition storage_service : CommissaireService.service :=
  {| CommissaireService.svc_class := "StorageService";
     CommissaireService.svc_attr := fun name =>
       snd <$> List.find (fun h => String.eqb h.1 name)
         (StorageRPC.handlers sample_json_loads sample_model_new
            (fun m => m) (list json)
            sample_save sample_get sample_delete sample_list
            listing_storage []);
     CommissaireService.svc_on_message := CommissaireService.on_message |}.

(** The keys of a dict in the order in which the finite map lists
    them, [os.path.realpath] on absolute paths without links, and a CLI that
    parses every command line and whose run succeeds. *)
Definition sample_dict_iter (d : gmap string json) : list string :=
  (map_to_list d).*1.
Definition sample_realpath (path : string) : string := path.
Definition sample_parse (cli_args : list string) : res unit := Ok tt.
Definition sample_run (cli_args : list string) : res Z := Ok 0%Z.
Definition failing_parse (cli_args : list string) : res unit :=
  Raise (PyExc ansible_wrapper.AnsibleParserError "no playbook").
Definition sample_issubclass (c base : pyclass) : bool :=
  bool_decide (c = base).

End Samples2.

(* ================================================================= *)
(** ** Handlers that act on the message and on the bus *)

Module Acting.

Import CommissaireService.

(** A handler, as the method of the service that it is: it is given the
    message and runs in the world, where it may acknowledge or reject
    the message and use the connection before it returns or raises. *)
Definition handler : Type := message -> call_args -> M json.

(** A service instance with such handlers. *)
Record service := Service {
  svc_class : string;
  svc_attr : string -> option handler;
  svc_on_message : json -> message -> M unit
}.

Definition MessageStateError : pyclass :=
  PyClass "kombu.exceptions" "MessageStateError".

(** An acknowledgement of this message. *)
Definition is_ack_of (msg : message) (e : event) : bool :=
  match e with
  | EvAck tag => Z.eqb tag (delivery_tag msg)
  | _ => false
  end.

(** The state in which an event leaves this message, when it settles
    it. *)
Definition settles (msg : message) (e : event) : option string :=
  match e with
  | EvAck tag =>
      if Z.eqb tag (delivery_tag msg) then Some "ACK" else None
  | EvReject tag requeue =>
      if Z.eqb tag (delivery_tag msg)
      then Some (if requeue then "REQUEUED" else "REJECTED")
      else None
  | _ => None
  end.

(** [message._state], once the message is acknowledged, rejected or
    requeued. *)
Definition state (msg : message) (w : world) : option string :=
  last (omap (settles msg) (w_trace w)).

(** [message.acknowledged] *)
Definition acknowledged (msg : message) (w : world) : bool :=
  match state msg w with
  | Some _ => true
  | None => false
  end.

Definition already_acknowledged (state : string) : pyexc :=
  PyExc MessageStateError
    ("Message already acknowledged with state: " ++ state).

(** [message.ack()]: [kombu] raises on a message that is settled
    already. *)
Definition ack (msg : message) : M unit :=
  fun w =>
    match state msg w with
    | Some state => (Raise (already_acknowledged state), w)
    | None => message_ack msg w
    end.

(** [message.reject()] and, with [requeue], [message.requeue()] *)
Definition reject (msg : message) (requeue : bool) : M unit :=
  fun w =>
    match state msg w with
    | Some state => (Raise (already_acknowledged state), w)
    | None => emit (EvReject (delivery_tag msg) requeue) w
    end.

(** [CommissaireService.on_message] *)
Definition on_message (body : json) (msg : message) : M unit :=
  ack msg.

(** [on_message] as [getattr(self, 'on_message')] gives it to the
    engine for a body whose method is [message]: of its parameters
    [(self, body, message)], a single positional value is the body; a
    second one takes the place of [message], which the keyword then
    gives again.  The method returns [None]. *)
Definition on_message_method : handler :=
  fun msg args =>
    match args with
    | ArgsPos [body] => on_message body msg ;;; ret JNull
    | ArgsPos (_ :: _ :: _) =>
        raise (PyExc TypeError
                 "on_message() got multiple values for argument 'message'")
    | _ =>
        let* bound := lift (PyCall.bind_args "on_message" ["body"] args) in
        on_message (PyCall.arg bound "body") msg ;;; ret JNull
    end.

(** [getattr(self, name)] *)
Definition getattr (svc : service) (name : string) : res handler :=
  match svc_attr svc name with
  | Some h => Ok h
  | None =>
      Raise (PyExc AttributeError
               ("'" ++ svc_class svc ++ "' object has no attribute '" ++
                name ++ "'"))
  end.

(** The body of the [try]: resolve [on_<method>], then call it. *)
Definition call_method (svc : service) (d : gmap string json) (m : string)
    (msg : message) : M json :=
  let* method := lift (getattr svc ("on_" ++ m)) in
  let* args := lift (call_args_of ("on_" ++ m) d) in
  emit (EvCall ("on_" ++ m) args) ;;;
  method msg args.

(** The [try ... except] statement: the value of [result] after it. *)
Definition dispatch (svc : service) (d : gmap string json) (m : string)
    (msg : message) : M json :=
  try_except (call_method svc d m msg)
             (fun error => lift (error_result d error)).

(** [CommissaireService._wrap_on_message] *)
Definition _wrap_on_message (svc : service) (body : json) (msg : message)
  : M unit :=
  let* expected := lift (expected_method msg) in
  match jsonrpc_call body expected with
  | Some d =>
      let* result := dispatch svc d expected msg in
      (* the debug line formats body['id'] *)
      let* _ := lift (getitem d "id") in
      ack msg ;;;
      match reply_address msg with
      | Some address =>
          let* response_queue := SimpleQueue address default_queue_opts in
          queue_put response_queue (reply_payload result) ;;;
          queue_close response_queue
      | None => ret tt
      end
  | None => svc_on_message svc body msg
  end.

(** A handler that only computes, among the handlers that act. *)
Definition computing (h : CommissaireService.handler) : handler :=
  fun msg args => lift (h msg args).

(** A service whose handlers only compute. *)
Definition of_computing (svc : CommissaireService.service) : service :=
  {| svc_class := CommissaireService.svc_class svc;
     svc_attr := fun name =>
       computing <$> CommissaireService.svc_attr svc name;
     svc_on_message := CommissaireService.svc_on_message svc |}.

(** How many times this message was acknowledged. *)
Definition acks_of (msg : message) (trace : list event) : nat :=
  length (List.filter (is_ack_of msg) trace).

End Acting.

(* ================================================================= *)
(** ** Concrete handlers that act *)

Module ActingSamples.

Import CommissaireService Samples.

(** [on_defer] sends the message back to its queue and returns
    [None]. *)
Definition on_defer : Acting.handler :=
  fun msg args => Acting.reject msg true ;;; ret JNull.

(** [on_audit] puts a line on the queue [audit], then returns ["ok"]. *)
Definition on_audit : Acting.handler :=
  fun msg args =>
    let* audit := SimpleQueue "audit" default_queue_opts in
    queue_put audit (JStr "seen") ;;;
    queue_close audit ;;;
    ret (JStr "ok").

(** The sample service, with the [on_message] it inherits, [on_audit]
    and [on_defer] beside its handlers that only compute. *)
Definition acting_service : Acting.service :=
  {| Acting.svc_class := "SampleService";
     Acting.svc_attr := fun name =>
       if String.eqb name "on_message" then Some Acting.on_message_method
       else if String.eqb name "on_audit" then Some on_audit
       else if String.eqb name "on_defer" then Some on_defer
       else Acting.computing <$> svc_attr sample_service name;
     Acting.svc_on_message := Acting.on_message |}.

(** [{"jsonrpc": "2.0", "id": 1, "method": "message",
      "params": {"body": "hello"}}] *)
Definition message_call : gmap string json :=
  {[ "jsonrpc" := JStr "2.0"; "id" := JNum 1;
     "method" := JStr "message";
     "params" := JDict {[ "body" := JStr "hello" ]} ]}.

End ActingSamples.

(* ================================================================= *)
(** ** Inbound dispatch: what [_wrap_on_message] answers *)

Section Dispatch.

Import CommissaireService Samples Observe.

Lemma classic_in (c : ascii) s :
  In c (String.list_ascii_of_string s) \/
  ~ In c (String.list_ascii_of_string s).
Proof.
  destruct (decide (c ∈ String.list_ascii_of_string s)) as [H|H].
  - left. by apply list_elem_of_In.
  - right. by rewrite <- list_elem_of_In.
Qed.

Lemma after_nil w : after w [] = w.
Proof. destruct w; unfold after; simpl. by rewrite app_nil_r. Qed.

Lemma error_result_fields d id error :
  d !! "id" = Some id ->
  exists r, error_result d error = Ok r /\
    jget "id" r = Some id /\
    jget "jsonrpc" r = Some (JStr "2.0") /\
    error_code r =
      Some (JNum (if bool_decide (exc_class error = AttributeError)
                  then -32601 else -32600)%Z) /\
    error_message r = Some (JStr (exc_text error)) /\
    error_exception r = Some (JStr (class_str (exc_class error))).
Proof.
  intros Hid. unfold error_result, getitem. rewrite Hid.
  eexists; split; [reflexivity|].
  unfold error_code, error_message, error_exception, error_object; simpl.
  repeat split; by simplify_map_eq.
Qed.

(** With no [on_<method>] attribute the [try] stops at [getattr]: the
    world is the one before. *)
Lemma call_method_no_handler svc d m msg w :
  svc_attr svc ("on_" ++ m) = None ->
  call_method svc d m msg w =
    (Raise (PyExc AttributeError
              ("'" ++ svc_class svc ++ "' object has no attribute '" ++
               "on_" ++ m ++ "'")), w).
Proof.
  intros Hnone. unfold call_method, bind, lift, getattr. by rewrite Hnone.
Qed.

(** With a handler and arguments for it, the handler is called once and
    the outcome of the [try] is the outcome of the call. *)
Lemma call_method_handler svc d m msg h args w :
  svc_attr svc ("on_" ++ m) = Some h ->
  call_args_of ("on_" ++ m) d = Ok args ->
  call_method svc d m msg w =
    (h msg args, after w [EvCall ("on_" ++ m) args]).
Proof.
  intros Hh Hargs. unfold call_method, bind, lift, getattr, emit.
  rewrite Hh, Hargs. simpl. by destruct (h msg args).
Qed.


(** The reply has the single key [result]: no [id], no [jsonrpc]. *)
Lemma reply_payload_keys r :
  jget "result" (reply_payload r) = Some r /\
  jget "id" (reply_payload r) = None /\
  jget "jsonrpc" (reply_payload r) = None.
Proof. unfold reply_payload; simpl. by simplify_map_eq. Qed.

Lemma published_app t1 t2 :
  published (t1 ++ t2) = (published t1 ++ published t2)%list.
Proof. unfold published. by rewrite omap_app. Qed.

Lemma answer_events_published msg r :
  published (answer_events msg r) =
    match reply_address msg with
    | Some address => [(address, reply_payload r)]
    | None => []
    end.
Proof. unfold answer_events. by destruct (reply_address msg). Qed.

Lemma rsplit_at_None sep s :
  rsplit_at sep s = None <-> ~ In sep (String.list_ascii_of_string s).
Proof.
  induction s as [|c s IH]; simpl; [tauto|].
  destruct (rsplit_at sep s) as [[a b]|].
  - split; [done|]. intros H. exfalso. apply H. right.
    destruct (classic_in sep s) as [Hin|Hin]; [done|].
    by apply IH in Hin.
  - destruct (Ascii.eqb_spec c sep) as [->|Hne].
    + split; [done|]. intros H. exfalso. apply H. by left.
    + split; [|done]. intros _ [H|H]; [done|]. by apply IH.
Qed.

(** X27: a routing key without a dot: [IndexError] leaves
    [_wrap_on_message], whatever the body, before anything is done. *)
Lemma wrap_routing_key_without_dot svc body msg w :
  ~ In "."%char (String.list_ascii_of_string (routing_key msg)) ->
  _wrap_on_message svc body msg w =
    (Raise (PyExc IndexError "list index out of range"), w).
Proof.
  intros Hdot. apply (rsplit_at_None "."%char) in Hdot.
  unfold _wrap_on_message, bind, lift, expected_method, rsplit1.
  by rewrite Hdot.
Qed.

(** C1 (as stated) fails: [on_boom] raises [AttributeError("boom")];
    the response carries -32601, the code of a missing method, not
    -32600, and its [data.exception] is [str(type(error))], the text
    ["<class 'AttributeError'>"], not the name of the type. *)
Lemma handler_AttributeError_answered_as_method_not_found :
  (exists h, svc_attr sample_service "on_boom" = Some h /\
     h (inbound "svc.boom") (ArgsKw ∅) = Raise (PyExc AttributeError "boom")) /\
  (exists r w',
     dispatch sample_service (call_body "boom") "boom" (inbound "svc.boom")
       quiet_world = (Ok r, w') /\
     error_code r = Some (JNum (-32601)) /\
     error_exception r = Some (JStr "<class 'AttributeError'>")) /\
  ~ dispatch_errors_as_stated.
Proof.
  split; [|split].
  - eexists; split; reflexivity.
  - do 2 eexists. split; [vm_compute; reflexivity|]. split; reflexivity.
  - intros H.
    destruct (H sample_service (call_body "boom") "boom" (inbound "svc.boom")
                quiet_world) as [_ H2].
    destruct (H2 (fun _ _ => Raise (PyExc AttributeError "boom"))
                 (ArgsKw ∅) (PyExc AttributeError "boom")
                 eq_refl eq_refl eq_refl) as (r & w' & Hd & Hc & _).
    vm_compute in Hd. inversion Hd; subst. vm_compute in Hc. discriminate.
Qed.

(** C1 (amended): for a call whose body carries an id, (1) when the
    service has no [on_<method>] attribute the error response carries
    code -32601 and the id of the request, and no handler is invoked (the
    world is the one before); (2) when the resolved handler raises, the
    handler was invoked once and the error response carries code -32600,
    or -32601 when the exception is exactly an [AttributeError], its
    [error.message] is [str(error)] and its [error.data.exception] is
    [str(type(error))], the text ["<class '...'>"] around the name of the
    type. *)
Theorem dispatch_error_codes svc d m msg id w :
  d !! "id" = Some id ->
  (svc_attr svc ("on_" ++ m) = None ->
   exists r, dispatch svc d m msg w = (Ok r, w) /\
     error_code r = Some (JNum (-32601)) /\
     jget "id" r = Some id) /\
  (forall h args e,
     svc_attr svc ("on_" ++ m) = Some h ->
     call_args_of ("on_" ++ m) d = Ok args ->
     h msg args = Raise e ->
     exists r,
       dispatch svc d m msg w = (Ok r, after w [EvCall ("on_" ++ m) args]) /\
       error_code r =
         Some (JNum (if bool_decide (exc_class e = AttributeError)
                     then -32601 else -32600)%Z) /\
       error_message r = Some (JStr (exc_text e)) /\
       error_exception r = Some (JStr (class_str (exc_class e)))).
Proof.
  intros Hid. split.
  - intros Hnone.
    destruct (error_result_fields d id
                (PyExc AttributeError
                   ("'" ++ svc_class svc ++ "' object has no attribute '" ++
                    "on_" ++ m ++ "'")) Hid)
      as (r & Hr & Hrid & _ & Hcode & _).
    exists r. unfold dispatch, try_except.
    rewrite call_method_no_handler by done.
    unfold lift. rewrite Hr. done.
  - intros h args e Hh Hargs He.
    destruct (error_result_fields d id e Hid)
      as (r & Hr & _ & _ & Hcode & Hmsg & Hexc).
    exists r. unfold dispatch, try_except.
    rewrite (call_method_handler _ _ _ _ h args) by done.
    rewrite He. unfold lift. rewrite Hr. done.
Qed.

(** A call of a missing method and a call of [on_fail], both with an
    id. *)
Lemma dispatch_error_codes_witness :
  (exists r,
     dispatch sample_service (call_body "nope") "nope" (inbound "svc.nope")
       quiet_world = (Ok r, quiet_world) /\
     error_code r = Some (JNum (-32601)) /\
     jget "id" r = Some (JNum 1)) /\
  (exists r,
     dispatch sample_service (call_body "fail") "fail" (inbound "svc.fail")
       quiet_world =
       (Ok r, after quiet_world [EvCall "on_fail" (ArgsKw ∅)]) /\
     error_code r = Some (JNum (-32600)) /\
     error_message r = Some (JStr "bad value") /\
     error_exception r = Some (JStr "<class 'ValueError'>")).
Proof.
  split.
  - apply (dispatch_error_codes sample_service (call_body "nope") "nope"
             (inbound "svc.nope") (JNum 1) quiet_world); reflexivity.
  - apply (proj2 (dispatch_error_codes sample_service (call_body "fail")
                    "fail" (inbound "svc.fail") (JNum 1) quiet_world eq_refl)
             (fun _ _ => Raise (PyExc ValueError "bad value"))
             (ArgsKw ∅) (PyExc ValueError "bad value"));
      reflexivity.
Defined.

(** C2, on the call [{"jsonrpc": "2.0", "id": 1, "method": "ping",
    "params": {}}] with [reply_to = "response-1"]: what the engine puts
    on the reply queue is [{"result": "pong"}], with no [id] and no
    [jsonrpc] key, where [respond] puts [{"jsonrpc": "2.0", "id": 1,
    "result": "pong"}].  On the call of the missing method [nope], the
    id is there, but one level down, under [result], with the error
    beside it: the reply itself has no [id] and no [error] key. *)
Theorem reply_to_a_call_carries_no_id :
  let w := (_wrap_on_message sample_service (JDict (call_body "ping"))
              (inbound "svc.ping") quiet_world).2 in
  let w_nope := (_wrap_on_message sample_service (JDict (call_body "nope"))
                   (inbound "svc.nope") quiet_world).2 in
  published (w_trace w) =
    [("response-1", JDict {[ "result" := JStr "pong" ]})] /\
  (forall q payload, (q, payload) ∈ published (w_trace w) ->
     jget "id" payload = None /\ jget "jsonrpc" payload = None) /\
  published
    (w_trace (respond "response-1" (JNum 1) (JStr "pong") None
                quiet_world).2) =
    [("response-1",
      JDict {[ "jsonrpc" := JStr "2.0"; "id" := JNum 1;
               "result" := JStr "pong" ]})] /\
  (exists payload,
     published (w_trace w_nope) = [("response-1", payload)] /\
     jget "id" payload = None /\ jget "error" payload = None /\
     jpath ["result"; "id"] payload = Some (JNum 1) /\
     jpath ["result"; "error"; "code"] payload = Some (JNum (-32601))).
Proof.
  split; [vm_compute; reflexivity|]. split.
  - intros q payload Hin. vm_compute in Hin.
    apply list_elem_of_singleton in Hin. injection Hin as -> ->.
    split; reflexivity.
  - split; [vm_compute; reflexivity|].
    eexists. split; [vm_compute; reflexivity|]. repeat split.
Qed.

(** C3, on three messages: a call of [on_ping] without an id, a call of
    a missing method without an id, and a call on the routing key
    ["ping"], which has no dot.  Each time [_wrap_on_message] raises
    ([KeyError('id')] twice, then [IndexError]) into its caller, the
    consuming loop; nothing is put on the reply queue. *)
Theorem malformed_message_raises_into_the_consumer :
  _wrap_on_message sample_service (JDict (call_body_without_id "ping"))
    (inbound "svc.ping") quiet_world =
    (Raise (key_error "id"),
     after quiet_world [EvCall "on_ping" (ArgsKw ∅)]) /\
  _wrap_on_message sample_service (JDict (call_body_without_id "nope"))
    (inbound "svc.nope") quiet_world =
    (Raise (key_error "id"), quiet_world) /\
  _wrap_on_message sample_service (JDict (call_body "ping"))
    (inbound "ping") quiet_world =
    (Raise (PyExc IndexError "list index out of range"), quiet_world).
Proof. repeat split; vm_compute; reflexivity. Qed.

(** C4, on the call [{"method": "ping", "params": {}}] (no id) on
    ["svc.ping"]: [on_ping] is invoked and returns, then the engine
    raises before [message.ack()]: the message is acknowledged zero
    times. *)
Theorem call_without_id_is_never_acknowledged :
  let out := _wrap_on_message sample_service
               (JDict (call_body_without_id "ping"))
               (inbound "svc.ping") quiet_world in
  invoked (w_trace out.2) = ["on_ping"] /\
  acks (w_trace out.2) = 0 /\
  out.1 = Raise (key_error "id").
Proof. repeat split; vm_compute; reflexivity. Qed.

End Dispatch.

(* ================================================================= *)
(** ** Outbound calls: [request] *)

Section Request.

Import CommissaireService Samples Observe.

Lemma declare_is_Some name o qs : is_Some (declare name o qs !! name).
Proof.
  unfold declare. destruct (qs !! name) eqn:H; [by rewrite H|].
  by rewrite lookup_insert_eq.
Qed.

Lemma declare_fresh name o qs :
  qs !! name = None -> declare name o qs !! name = Some (QueueState o 0).
Proof. intros H. unfold declare. rewrite H. by rewrite lookup_insert_eq. Qed.

Lemma subscribe_is_Some name qs :
  is_Some (qs !! name) -> is_Some (subscribe name qs !! name).
Proof.
  intros [q Hq]. unfold subscribe. rewrite Hq. by rewrite lookup_insert_eq.
Qed.

(** X28: when no reply reaches the reply queue in time: the queue
    [response-<id>] was declared auto-delete and not durable, the
    request was published with that reply address, one [get] with
    timeout 3 was made, [Empty] is raised to the caller, and the queue
    still exists, for [close] was not called. *)
Lemma request_without_reply routing_key method params w :
  let id := w_uuid w (w_uuid_next w) in
  let name := "response-" ++ id in
  (w_inbox w !! name = None \/ w_inbox w !! name = Some []) ->
  let out := request routing_key method params None w in
  out.1 = Raise (PyExc QueueEmpty "") /\
  w_trace out.2 =
    (w_trace w ++
     [EvDeclare name reply_queue_opts;
      EvPublish routing_key (jsonrpc_msg id method params) name;
      EvGet name 3])%list /\
  is_Some (w_queues out.2 !! name).
Proof.
  intros id name Hin out. subst out.
  unfold request, bind, create_id, SimpleQueue, publish, queue_get, emit,
    set_queues, ret, bind, receive; simpl.
  fold id. fold name.
  assert (Hraise : match w_inbox w !! name with
                   | Some (m :: _) => false
                   | _ => true
                   end = true).
  { destruct Hin as [-> | ->]; done. }
  destruct (w_inbox w !! name) as [[|m rest]|]; try done; simpl.
  all: split; [done|]; split;
    [by rewrite <- !app_assoc
    |apply subscribe_is_Some, declare_is_Some].
Qed.

(** X29: when a reply that is an object is there: it is returned, the reply
    queue was closed after the one [get], and a queue that did not exist
    before the call does not exist after it. *)
Lemma request_with_reply routing_key method params w d rest :
  let id := w_uuid w (w_uuid_next w) in
  let name := "response-" ++ id in
  w_inbox w !! name = Some (JDict d :: rest) ->
  w_queues w !! name = None ->
  let out := request routing_key method params None w in
  out.1 = Ok (JDict d) /\
  w_trace out.2 =
    (w_trace w ++
     [EvDeclare name reply_queue_opts;
      EvPublish routing_key (jsonrpc_msg id method params) name;
      EvGet name 3; EvAckReply name; EvClose name])%list /\
  w_queues out.2 !! name = None.
Proof.
  intros id name Hin Hq out. subst out.
  unfold request, bind, create_id, SimpleQueue, publish, queue_get, emit,
    set_queues, ret, bind, receive, queue_close, lift; simpl.
  fold id. fold name. rewrite Hin. simpl.
  split; [done|]. split; [by rewrite <- !app_assoc|].
  unfold unsubscribe, subscribe. rewrite (declare_fresh _ _ _ Hq).
  rewrite !lookup_insert_eq. simpl. by rewrite lookup_delete_eq.
Qed.

(** C5, on [request("storage.save", "save", {})] with no responder: the
    call raises [Empty] after one [get] with timeout 3 and, [close] not
    being called on that path, the reply queue [response-uuid-0] still
    exists, with the consumer of the call subscribed to it.  With a
    reply, the same call closes the queue, which is gone. *)
Theorem request_timeout_leaves_the_reply_queue :
  let out := request "storage.save" "save" (JDict ∅) None quiet_world in
  out.1 = Raise (PyExc QueueEmpty "") /\
  w_trace out.2 =
    [EvDeclare "response-uuid-0" reply_queue_opts;
     EvPublish "storage.save" (jsonrpc_msg "uuid-0" "save" (JDict ∅))
       "response-uuid-0";
     EvGet "response-uuid-0" 3] /\
  closed (w_trace out.2) = [] /\
  w_queues out.2 !! "response-uuid-0" = Some (QueueState reply_queue_opts 1) /\
  let reply := JDict {[ "result" := JStr "saved" ]} in
  let answered :=
    request "storage.save" "save" (JDict ∅) None (answering_world reply) in
  answered.1 = Ok reply /\
  closed (w_trace answered.2) = ["response-uuid-0"] /\
  w_queues answered.2 !! "response-uuid-0" = None.
Proof. repeat split; vm_compute; reflexivity. Qed.

End Request.

(* ================================================================= *)
(** ** The supervisor keeps its pool *)

Section Supervisor.

Import ServiceManager.

Lemma index_lookup (l : list nat) i x :
  NoDup l -> l !! i = Some x -> index x l = Ok i.
Proof.
  revert i. induction l as [|y l IH]; intros i Hnd Hi; [done|].
  apply NoDup_cons in Hnd as [Hy Hnd]. destruct i as [|i]; simpl in *.
  - injection Hi as ->. by rewrite bool_decide_eq_true_2.
  - rewrite bool_decide_eq_false_2.
    + by rewrite (IH i).
    + intros ->. apply Hy. by eapply list_elem_of_lookup_2.
Qed.

(** Replacing the task at position [i]: it leaves the list and the new
    task comes last. *)
Lemma replace_at st i t :
  NoDup (_asyncs st) -> _asyncs st !! i = Some t ->
  replace t st =
    Ok {| _process_count := _process_count st;
          _asyncs := (delete i (_asyncs st) ++ [launched st])%list;
          launched := S (launched st);
          warned := S (warned st) |}.
Proof.
  intros Hnd Hi. unfold replace. by rewrite (index_lookup _ i).
Qed.

Lemma replace_invariant st i t st' :
  pool_invariant st -> _asyncs st !! i = Some t ->
  replace t st = Ok st' -> pool_invariant st'.
Proof.
  intros (Hlen & Hnd & Hlt & Hcount) Hi Hrep.
  rewrite (replace_at st i t Hnd Hi) in Hrep. injection Hrep as <-.
  assert (Hi' : i < length (_asyncs st)) by by eapply lookup_lt_Some.
  assert (Hsub : delete i (_asyncs st) ⊆+ _asyncs st)
    by apply sublist_submseteq, sublist_delete.
  unfold pool_invariant; simpl. repeat split.
  - rewrite length_app, length_delete by eauto. simpl. lia.
  - apply NoDup_app. split.
    { eapply sublist_NoDup; [exact Hnd|apply sublist_delete]. }
    split.
    + intros x Hx Hx'. apply list_elem_of_singleton in Hx' as ->.
      apply (elem_of_submseteq _ _ _ Hx) in Hsub.
      rewrite Forall_forall in Hlt. specialize (Hlt _ Hsub).
      simpl in Hlt. lia.
    + apply NoDup_singleton.
  - apply Forall_app. split.
    + rewrite Forall_forall in Hlt |- *. intros x Hx.
      apply (elem_of_submseteq _ _ _ Hx) in Hsub.
      specialize (Hlt _ Hsub). lia.
    + apply Forall_singleton. lia.
  - lia.
Qed.

(** The pass never raises, and keeps the invariant, whatever is ready. *)
Lemma for_asyncs_invariant ready n i st :
  pool_invariant st ->
  exists st', for_asyncs ready n i st = Ok st' /\ pool_invariant st' /\
    _process_count st' = _process_count st.
Proof.
  revert i st. induction n as [|n IH]; intros i st Hinv; simpl; [eauto|].
  destruct (_asyncs st !! i) as [t|] eqn:Hi; [|eauto].
  destruct (ready t); [|by apply IH].
  pose proof Hinv as (_ & Hnd & _).
  pose proof (replace_at st i t Hnd Hi) as Hrep. rewrite Hrep.
  destruct (IH (S i) _ (replace_invariant st i t _ Hinv Hi Hrep))
    as (st' & -> & Hinv' & Hpc).
  eauto.
Qed.

(** The bound on the iterations is never what ends the pass: the
    position has gone past the end of the list. *)
Lemma for_asyncs_bound ready n i st :
  pool_invariant st -> length (_asyncs st) <= n + i ->
  for_asyncs ready (S n) i st = for_asyncs ready n i st.
Proof.
  revert i st. induction n as [|n IH]; intros i st Hinv Hlen.
  - simpl. rewrite lookup_ge_None_2 by lia. done.
  - change (for_asyncs ready (S (S n)) i st) with
      (match _asyncs st !! i with
       | None => Ok st
       | Some t =>
           if ready t then
             match replace t st with
             | Ok st' => for_asyncs ready (S n) (S i) st'
             | Raise e => Raise e
             end
           else for_asyncs ready (S n) (S i) st
       end).
    simpl. destruct (_asyncs st !! i) as [t|] eqn:Hi; [|done].
    destruct (ready t).
    + pose proof Hinv as (Hl & Hnd & _).
      pose proof (replace_at st i t Hnd Hi) as Hrep. rewrite Hrep.
      pose proof (replace_invariant st i t _ Hinv Hi Hrep) as Hinv'.
      apply IH; [done|]. destruct Hinv' as (Hl' & _). simpl in *. lia.
    + apply IH; [done|lia].
Qed.

Lemma poll_invariant ready st :
  pool_invariant st ->
  exists st', poll ready st = Ok st' /\ pool_invariant st' /\
    _process_count st' = _process_count st.
Proof. apply for_asyncs_invariant. Qed.

Lemma launch_spec n st :
  launch n st =
    {| _process_count := _process_count st;
       _asyncs := _asyncs st ++ seq (launched st) n;
       launched := launched st + n;
       warned := warned st |}.
Proof.
  revert st. induction n as [|n IH]; intros st; simpl.
  - destruct st; simpl. by rewrite app_nil_r, Nat.add_0_r.
  - rewrite IH. simpl. f_equal; [by rewrite <- app_assoc|lia].
Qed.

Lemma init_fresh n self :
  __init__ n = Ok self ->
  self = {| _process_count := n; _asyncs := []; launched := 0; warned := 0 |}
  /\ 0 < n.
Proof. destruct n; simpl; [done|]. intros [= <-]. split; [done|lia]. Qed.

Lemma launch_invariant n self :
  __init__ n = Ok self -> pool_invariant (launch n self).
Proof.
  intros [-> _]%init_fresh.
  rewrite launch_spec. unfold pool_invariant; simpl. repeat split.
  - by rewrite length_seq.
  - apply NoDup_seq.
  - apply Forall_seq. intros; lia.
  - lia.
Qed.

Lemma polls_from_invariant polls st :
  pool_invariant st ->
  exists st', polls_from polls st = Ok st' /\ pool_invariant st' /\
    _process_count st' = _process_count st.
Proof.
  revert st. induction polls as [|ready polls IH]; intros st Hinv; simpl.
  - eauto.
  - destruct (poll_invariant ready st Hinv) as (st1 & -> & Hinv1 & Hpc1).
    destruct (IH st1 Hinv1) as (st' & -> & Hinv' & Hpc').
    exists st'. split; [done|]. split; [done|congruence].
Qed.

(** [run] never raises; after any number of turns the pool is whole. *)
Lemma run_invariant process_count self polls :
  __init__ process_count = Ok self ->
  exists st, run self polls = Ok st /\ pool_invariant st /\
    _process_count st = process_count.
Proof.
  intros Hinit. unfold run.
  pose proof (launch_invariant process_count self Hinit) as Hlaunch.
  apply init_fresh in Hinit as [-> _]. simpl in *.
  destruct (polls_from_invariant polls _ Hlaunch) as (st & Hrun & Hinv & Hpc).
  exists st. split; [done|]. split; [done|].
  rewrite Hpc, launch_spec. done.
Qed.

(** A pass from a position past which nothing is ready changes nothing. *)
Lemma for_asyncs_none_ready ready n i st :
  (forall j t, i <= j -> _asyncs st !! j = Some t -> ready t = false) ->
  for_asyncs ready n i st = Ok st.
Proof.
  revert i. induction n as [|n IH]; intros i Hnone; simpl; [done|].
  destruct (_asyncs st !! i) as [t|] eqn:Hi; [|done].
  rewrite (Hnone i t) by done. apply IH. intros j u Hj. apply Hnone. lia.
Qed.

(** A pass over a pool in which the task at position [j] alone is ready
    replaces that task and no other. *)
Lemma for_asyncs_single ready n i j t st :
  pool_invariant st ->
  i <= j -> _asyncs st !! j = Some t ->
  ready t = true -> (forall u, u <> t -> ready u = false) ->
  length (_asyncs st) <= n + i ->
  for_asyncs ready n i st =
    Ok {| _process_count := _process_count st;
          _asyncs := (delete j (_asyncs st) ++ [launched st])%list;
          launched := S (launched st);
          warned := S (warned st) |}.
Proof.
  intros Hinv. revert i. induction n as [|n IH]; intros i Hij Hj Ht Hothers Hlen.
  - apply lookup_lt_Some in Hj. lia.
  - simpl. pose proof Hinv as (_ & Hnd & Hlt & _).
    destruct (_asyncs st !! i) as [x|] eqn:Hi.
    + destruct (decide (i = j)) as [->|Hne].
      * assert (x = t) as -> by congruence. rewrite Ht.
        rewrite (replace_at st j t Hnd Hj).
        apply for_asyncs_none_ready. simpl. intros k u _ Hk.
        apply Hothers. intros ->.
        apply list_elem_of_lookup_2 in Hk.
        apply elem_of_app in Hk as [Hk|Hk].
        -- pose proof (delete_Permutation _ _ _ Hj) as Hperm.
           rewrite Hperm in Hnd. apply NoDup_cons in Hnd as [Hnot _]. done.
        -- apply list_elem_of_singleton in Hk.
           rewrite Forall_forall in Hlt.
           apply list_elem_of_lookup_2 in Hj. specialize (Hlt _ Hj).
           simpl in Hlt. lia.
      * assert (x <> t) as Hx.
        { intros ->. apply Hne. by eapply NoDup_lookup. }
        rewrite (Hothers x Hx). apply IH; [lia|done..|lia].
    + apply lookup_ge_None in Hi. apply lookup_lt_Some in Hj. lia.
Qed.

Lemma polls_from_app polls ready st :
  polls_from (polls ++ [ready]) st =
    match polls_from polls st with
    | Ok st' => poll ready st'
    | Raise e => Raise e
    end.
Proof.
  revert st. induction polls as [|r polls IH]; intros st; simpl.
  - by destruct (poll ready st).
  - destruct (poll r st); [apply IH|done].
Qed.

(** One more turn of the loop. *)
Lemma run_app self polls ready :
  run self (polls ++ [ready]) =
    match run self polls with
    | Ok st => poll ready st
    | Raise e => Raise e
    end.
Proof. apply polls_from_app. Qed.

(** C6, on a manager made for three workers of which the first two are
    complete when the loop looks at them: the turn replaces task 0 and
    passes over task 1, which followed it in the list that the loop
    iterates over and changes.  After the turn task 1, complete as it
    is, is still tracked and one replacement has been launched, not
    two; a second turn is needed to replace it.  Three tasks are
    tracked throughout. *)
Theorem adjacent_completions_take_two_turns :
  let complete := fun t : nat => Nat.ltb t 2 in
  exists self,
    __init__ 3 = Ok self /\
    run self [] =
      Ok {| _process_count := 3; _asyncs := [0; 1; 2];
            launched := 3; warned := 0 |} /\
    complete 0 = true /\ complete 1 = true /\
    run self [complete] =
      Ok {| _process_count := 3; _asyncs := [1; 2; 3];
            launched := 4; warned := 1 |} /\
    run self [complete; complete] =
      Ok {| _process_count := 3; _asyncs := [2; 3; 4];
            launched := 5; warned := 2 |}.
Proof. eexists. repeat split; reflexivity. Qed.

(** X30: in any state [run] reaches on a manager made for
    [process_count] workers (after their launch and any number of turns
    of its loop), when one tracked task [t] is complete and no other
    is, one more turn of the loop drops [t] from the tracked tasks and
    launches one replacement: [run] with that turn added yields the
    former tasks without [t] followed by the new one; there are
    [process_count] of them again, one more replacement is counted and
    the number of launches is [process_count] plus the number of
    replacements; every other task is still tracked. *)
Theorem single_completion_is_replaced
    process_count self polls st ready t :
  __init__ process_count = Ok self ->
  run self polls = Ok st ->
  t ∈ _asyncs st ->
  ready t = true ->
  (forall u, u <> t -> ready u = false) ->
  exists i st',
    _asyncs st !! i = Some t /\
    run self (polls ++ [ready]) = Ok st' /\
    _asyncs st' = (delete i (_asyncs st) ++ [launched st])%list /\
    (t ∉ _asyncs st') /\
    length (_asyncs st') = process_count /\
    warned st' = S (warned st) /\
    launched st' = S (launched st) /\
    launched st' = process_count + warned st' /\
    (forall u, u ∈ _asyncs st -> u <> t -> u ∈ _asyncs st').
Proof.
  intros Hinit Hrun Hin Ht Hothers.
  destruct (run_invariant process_count self polls Hinit)
    as (st0 & Hrun0 & Hinv & Hpc).
  assert (st0 = st) as -> by congruence.
  apply list_elem_of_lookup_1 in Hin as [i Hi].
  pose proof (for_asyncs_single ready (length (_asyncs st)) 0 i t st
                Hinv (Nat.le_0_l i) Hi Ht Hothers) as Hpoll.
  rewrite Nat.add_0_r in Hpoll. specialize (Hpoll (Nat.le_refl _)).
  pose proof Hinv as (Hlen & Hnd & Hlt & Hcount).
  pose proof (replace_invariant st i t _ Hinv Hi (replace_at st i t Hnd Hi))
    as (Hlen' & Hnd' & _ & Hcount').
  pose proof (delete_Permutation _ _ _ Hi) as Hperm.
  eexists i, _. split; [done|].
  split; [rewrite run_app, Hrun; exact Hpoll|]. simpl in *.
  split; [done|]. split.
  { intros Hin. apply elem_of_app in Hin as [Hin|Hin].
    - rewrite Hperm in Hnd. apply NoDup_cons in Hnd as [Hnot _]. done.
    - apply list_elem_of_singleton in Hin.
      rewrite Forall_forall in Hlt.
      apply list_elem_of_lookup_2 in Hi. specialize (Hlt _ Hi).
      simpl in Hlt. lia. }
  split; [congruence|]. split; [done|]. split; [done|].
  split; [congruence|].
  intros u Hu Hne. apply elem_of_app. left.
  rewrite Hperm in Hu. apply elem_of_cons in Hu as [->|Hu]; done.
Qed.

(** Three workers, of which the second completes before the first turn
    of the loop. *)
Lemma single_completion_is_replaced_witness :
  exists i st',
    [0; 1; 2] !! i = Some 1 /\
    run {| _process_count := 3; _asyncs := []; launched := 0; warned := 0 |}
      [fun u => bool_decide (u = 1)] = Ok st' /\
    _asyncs st' = (delete i [0; 1; 2] ++ [3])%list /\
    (1 ∉ _asyncs st') /\
    length (_asyncs st') = 3 /\
    warned st' = 1 /\
    launched st' = 4 /\
    launched st' = 3 + warned st' /\
    (forall u, u ∈ [0; 1; 2] -> u <> 1 -> u ∈ _asyncs st').
Proof.
  apply (single_completion_is_replaced 3
           {| _process_count := 3; _asyncs := []; launched := 0; warned := 0 |}
           []
           {| _process_count := 3; _asyncs := [0; 1; 2];
              launched := 3; warned := 0 |}
           (fun u => bool_decide (u = 1)) 1).
  - reflexivity.
  - reflexivity.
  - simpl. apply list_elem_of_In. simpl. auto.
  - reflexivity.
  - intros u Hu. by apply bool_decide_eq_false_2.
Defined.

End Supervisor.

(* ================================================================= *)
(** ** The storage router: registration *)

Section Registration.

Import StoreHandlerManager StorageService Samples.

Variable import_plugin : json -> res pyclass.
Variable repr : json -> string.

Lemma match_patterns_all_match self ps acc :
  Forall (has_match self) ps ->
  exists matched,
    match_patterns repr self (JStr <$> ps) acc = Ok matched /\
    forall c, c ∈ matched <-> c ∈ acc \/ exists p, p ∈ ps /\ resolves self p c.
Proof.
  revert acc. induction ps as [|p ps IH]; intros acc Hall; simpl.
  - exists acc. split; [done|]. intros c. split; [auto|].
    intros [H|(p & Hp & _)]; [done|]. by apply not_elem_of_nil in Hp.
  - apply Forall_cons in Hall as [(ms & Hms & Hne) Hall].
    rewrite Hms.
    destruct ms as [|m ms]; [done|].
    destruct (IH (acc ∪ list_to_set (types_of self (m :: ms))) Hall)
      as (matched & Hmatched & Hiff).
    exists matched. split; [exact Hmatched|]. intros c. rewrite Hiff.
    rewrite elem_of_union, elem_of_list_to_set.
    unfold types_of. rewrite list_elem_of_omap. split.
    + intros [[H|(n & Hn & Hc)]|(q & Hq & Hres)].
      * by left.
      * right. exists p. split; [apply elem_of_cons; by left|].
        by exists (m :: ms), n.
      * right. exists q. split; [apply elem_of_cons; by right|done].
    + intros [H|(q & Hq & Hres)]; [by left; left|].
      apply elem_of_cons in Hq as [->|Hq].
      * destruct Hres as (ms' & n & Hms' & Hn & Hc).
        left; right. exists n. split; [congruence|done].
      * right. by exists q.
Qed.

Lemma match_patterns_no_match self ps1 p ps2 acc :
  Forall (has_match self) ps1 ->
  fnmatch.filter (catalog_names self) (JStr p) = Ok [] ->
  match_patterns repr self (JStr <$> (ps1 ++ p :: ps2)%list) acc =
    Raise (PyExc ConfigurationError ("No match for model: " ++ p)).
Proof.
  revert acc. induction ps1 as [|q ps1 IH]; intros acc Hall Hp; simpl.
  - by rewrite Hp.
  - apply Forall_cons in Hall as [(ms & Hms & Hne) Hall].
    rewrite Hms.
    destruct ms as [|m ms]; [done|]. by apply IH.
Qed.

Lemma matches_star name : fnmatch.matches [fnmatch.Star] name = true.
Proof. induction name as [|c name IH]; simpl in *; [done|]. by rewrite IH. Qed.

(** The pattern of an entry without [models] keeps every name. *)
Lemma filter_star names : fnmatch.filter names (JStr "*") = Ok names.
Proof.
  unfold fnmatch.filter; simpl. f_equal.
  induction names as [|name names IH]; [done|].
  simpl List.filter. rewrite matches_star. by rewrite IH.
Qed.

(** C7: for an entry with a name that resolves to a handler type and
    whose patterns (the [models] key, or ["*"] without one) are [ps]:
    (1) when a pattern matches no name of the catalog, and each pattern
    before it matches one at least, the call raises the configuration
    error ["No match for model: <pattern>"] and nothing is registered;
    (2) when each pattern matches a name at least, the handler type is
    registered with the model types that some pattern resolves to, each
    once; (3) on the catalog NodeModel, NetworkModel, ClusterModel, the
    entry with models ["Node*"] registers NodeModel alone and the entry
    with models ["NoSuchPrefix*"] raises the configuration error. *)
Theorem register_resolves_models self d name handler_type ps :
  d !! "name" = Some name ->
  import_plugin name = Ok handler_type ->
  default (JList [JStr "*"]) (d !! "models") = JList (JStr <$> ps) ->
  let out := register_store_handler import_plugin repr self (JDict d) in
  (forall ps1 p ps2,
     ps = (ps1 ++ p :: ps2)%list ->
     Forall (has_match self) ps1 ->
     fnmatch.filter (catalog_names self) (JStr p) = Ok [] ->
     out.1.1 = Raise (PyExc ConfigurationError ("No match for model: " ++ p)) /\
     out.2 = self) /\
  (Forall (has_match self) ps ->
   exists types,
     out.1.1 = Ok tt /\
     _manager out.2 =
       StoreHandlerManager.register_store_handler (_manager self)
         handler_type (JDict (delete "models" (delete "name" d))) types /\
     NoDup types /\
     forall c, c ∈ types <-> exists p, p ∈ ps /\ resolves self p c) /\
  (let node := register_store_handler sample_import_plugin sample_repr
                 sample_storage (JDict node_entry) in
   node.1.1 = Ok tt /\
   model_types <$> _manager node.2 = [[model_class "NodeModel"]]) /\
  (register_store_handler sample_import_plugin sample_repr
     sample_storage (JDict no_such_entry)).1.1 =
    Raise (PyExc ConfigurationError "No match for model: NoSuchPrefix*").
Proof.
  intros Hname Himport Hmodels out.
  assert (Hout : out =
    match match_patterns repr self (JStr <$> ps) ∅ with
    | Raise e => (Raise e, JDict (delete "models" (delete "name" d)), self)
    | Ok matched_types =>
        (Ok tt, JDict (delete "models" (delete "name" d)),
         {| _model_types := _model_types self;
            _manager :=
              StoreHandlerManager.register_store_handler (_manager self)
                handler_type (JDict (delete "models" (delete "name" d)))
                (elements matched_types) |})
    end).
  { subst out. unfold register_store_handler. rewrite Hname, Himport.
    rewrite lookup_delete_ne by done. rewrite Hmodels. done. }
  split; [|split; [|split]].
  - intros ps1 p ps2 -> Hall Hp.
    rewrite Hout, (match_patterns_no_match self ps1 p ps2 ∅ Hall Hp). done.
  - intros Hall.
    destruct (match_patterns_all_match self ps ∅ Hall) as (matched & Hm & Hiff).
    exists (elements matched). rewrite Hout, Hm. simpl.
    split; [done|]. split; [done|]. split; [apply NoDup_elements|].
    intros c. rewrite elem_of_elements, Hiff. split.
    + intros [H|H]; [by apply not_elem_of_empty in H|done].
    + auto.
  - split; vm_compute; reflexivity.
  - vm_compute; reflexivity.
Qed.

End Registration.

(** The entry with models ["Node*"] on the catalog of the example. *)
Lemma register_resolves_models_witness :
  exists types,
    (StorageService.register_store_handler
       Samples.sample_import_plugin Samples.sample_repr
       Samples.sample_storage (JDict Samples.node_entry)).1.1 = Ok tt /\
    NoDup types /\
    forall c, c ∈ types <->
      exists p, p ∈ ["Node*"] /\
        StorageService.resolves Samples.sample_storage p c.
Proof.
  destruct (register_resolves_models
              Samples.sample_import_plugin Samples.sample_repr
              Samples.sample_storage Samples.node_entry (JStr "X")
              (PyClass "commissaire.storage" "X") ["Node*"]
              eq_refl eq_refl eq_refl) as (_ & Hall & _).
  destruct Hall as (types & Hok & _ & Hnd & Hiff).
  - repeat constructor. exists ["NodeModel"]. split; [|done].
    vm_compute; reflexivity.
  - exists types. auto.
Defined.

(* ================================================================= *)
(** ** The storage router: the view of the routing table *)

Section Listing.

Import StoreHandlerManager StorageService Samples.

Lemma registered_from (acc regs : list registration) :
  foldl (fun manager r =>
           StoreHandlerManager.register_store_handler manager
             (handler_type r) (config r) (model_types r))
        acc regs = (acc ++ regs)%list.
Proof.
  revert acc. induction regs as [|r regs IH]; intros acc; simpl.
  - by rewrite app_nil_r.
  - rewrite IH. unfold StoreHandlerManager.register_store_handler.
    destruct r; simpl. by rewrite <- app_assoc.
Qed.

(** The manager keeps the registrations in the order they were made. *)
Lemma registered_in_order regs : registered regs = regs.
Proof. unfold registered. by rewrite registered_from. Qed.

Lemma on_list_store_handlers_entries catalog manager :
  on_list_store_handlers (Storage catalog manager) =
    (fun r => entry r (merge_sort String.le (cls_name <$> model_types r)))
    <$> manager.
Proof.
  unfold on_list_store_handlers, list_store_handlers; simpl.
  apply list_fmap_ext. by intros _ [h c m] _.
Qed.

(** C8: after any sequence of registrations, [on_list_store_handlers]
    answers with one entry per registration, in the order of the
    registrations; the entry of a registration holds the name of its
    handler type, its config and the names of the model types it
    serves, sorted: the names are in lexicographic order, they are the
    names of the types served, and the same list comes out in whatever
    order the types were given. *)
Theorem list_store_handlers_in_order catalog regs :
  let out := on_list_store_handlers (Storage catalog (registered regs)) in
  length out = length regs /\
  forall i r, regs !! i = Some r ->
    exists names,
      out !! i = Some (entry r names) /\
      jget "handler_type" (entry r names) =
        Some (JStr (cls_name (handler_type r))) /\
      jget "config" (entry r names) = Some (config r) /\
      jget "model_types" (entry r names) = Some (JList (JStr <$> names)) /\
      Sorted String.le names /\
      names ≡ₚ cls_name <$> model_types r /\
      forall types, types ≡ₚ model_types r ->
        merge_sort String.le (cls_name <$> types) = names.
Proof.
  intros out. subst out.
  rewrite registered_in_order, on_list_store_handlers_entries.
  split; [by rewrite length_fmap|].
  intros i r Hi.
  exists (merge_sort String.le (cls_name <$> model_types r)).
  rewrite list_lookup_fmap, Hi. simpl.
  split; [done|]. unfold entry. simpl.
  split; [by simplify_map_eq|]. split; [by simplify_map_eq|].
  split; [by simplify_map_eq|].
  split; [apply (Sorted_merge_sort _)|].
  split; [apply merge_sort_Permutation|].
  intros types Hperm.
  apply (Sorted_unique String.le); try apply (Sorted_merge_sort _).
  rewrite !merge_sort_Permutation. by rewrite Hperm.
Qed.

End Listing.

(* ================================================================= *)
(** ** The storage router: building a model *)

Section BuildModel.

Import StorageService Samples.

Variable json_loads : string -> res json.
Variable model_new : pyclass -> gmap string json -> res json.

(** A string that does not parse: the error of the parser is raised. *)
Lemma build_model_parse_failure self model_type_name s e :
  json_loads s = Raise e ->
  _build_model json_loads model_new self model_type_name (JStr s) = Raise e.
Proof. intros H. unfold _build_model. by rewrite H. Qed.

(** A type name that the catalog does not hold: [KeyError], a lookup
    error. *)
Lemma build_model_unknown_type self model_type_name fields :
  _model_types self !! model_type_name = None ->
  _build_model json_loads model_new self model_type_name (JDict fields) =
    Raise (key_error model_type_name) /\
  is_LookupError (exc_class (key_error model_type_name)) = true.
Proof. intros H. unfold _build_model. by rewrite H. Qed.

(** A string that parses to a value that is not an object: the
    [JSONDecodeError] is built from its message alone, which raises
    [TypeError] in its stead. *)
Lemma build_model_not_an_object self model_type_name s v :
  json_loads s = Ok v ->
  (forall d, v <> JDict d) ->
  _build_model json_loads model_new self model_type_name (JStr s) =
    Raise (PyExc TypeError
             "__init__() missing 2 required positional arguments: 'doc' and 'pos'").
Proof.
  intros H Hv. unfold _build_model. rewrite H.
  destruct v; try done. by destruct (Hv d).
Qed.

End BuildModel.

Section BuildModelOnSamples.

Import StorageService Samples.

(** C9, on [_build_model("NodeModel", "[]")]: the string parses to a
    list, not an object; the call raises [TypeError], which is neither a
    [JSONDecodeError] nor another [ValueError], where a string that does
    not parse raises [JSONDecodeError] and an unknown type name raises
    [KeyError]. *)
Theorem non_object_payload_raises_TypeError :
  let build := _build_model sample_json_loads sample_model_new sample_storage in
  build "NodeModel" (JStr "[]") =
    Raise (PyExc TypeError
             "__init__() missing 2 required positional arguments: 'doc' and 'pos'") /\
  (forall e, build "NodeModel" (JStr "[]") = Raise e ->
     is_ValueError (exc_class e) = false) /\
  (exists e, build "NodeModel" (JStr "[") = Raise e /\
     exc_class e = JSONDecodeError) /\
  (exists e, build "NoSuchModel" (JStr "{}") = Raise e /\
     exc_class e = KeyError /\ is_LookupError (exc_class e) = true) /\
  build "NodeModel" (JStr "{}") = Ok (JDict ∅).
Proof.
  intros build. split; [reflexivity|]. split.
  - intros e He. vm_compute in He. by inversion He.
  - split; [eexists; split; reflexivity|].
    split; [eexists; split; [reflexivity|split; reflexivity]|reflexivity].
Qed.

End BuildModelOnSamples.

(* ================================================================= *)
(** ** The storage router: what registration does to its argument *)

Section Frame.

Import StoreHandlerManager StorageService Samples.

Variable import_plugin : json -> res pyclass.
Variable repr : json -> string.

(** C10: [register_store_handler] changes the mapping it is given.
    Whatever the outcome, the keys other than [name] and [models] are
    as they were.  When the call registers, the argument has lost its
    [name] key and its [models] key: it is the mapping given minus
    these two keys, and it is the config the manager is given for the
    registration. *)
Theorem register_consumes_name_and_models self d :
  let out := register_store_handler import_plugin repr self (JDict d) in
  exists d',
    out.1.2 = JDict d' /\
    (forall k, k <> "name" -> k <> "models" -> d' !! k = d !! k) /\
    (out.1.1 = Ok tt ->
     d' = delete "models" (delete "name" d) /\
     d' !! "name" = None /\ d' !! "models" = None /\
     exists handler_type types,
       _manager out.2 =
         StoreHandlerManager.register_store_handler (_manager self)
           handler_type (JDict d') types).
Proof.
  intros out. subst out. unfold register_store_handler.
  destruct (d !! "name") as [name|] eqn:Hname.
  - destruct (import_plugin name) as [handler_type|e].
    + destruct (iterate _) as [patterns|e].
      * destruct (match_patterns _ _ _ _) as [matched|e]; simpl.
        -- exists (delete "models" (delete "name" d)). split; [done|].
           split; [intros k H1 H2; by rewrite !lookup_delete_ne|].
           intros _. split; [done|].
           split; [by rewrite lookup_delete_ne, lookup_delete_eq|].
           split; [by rewrite lookup_delete_eq|]. eauto.
        -- exists (delete "models" (delete "name" d)). split; [done|].
           split; [intros k H1 H2; by rewrite !lookup_delete_ne|done].
      * simpl. exists (delete "models" (delete "name" d)). split; [done|].
        split; [intros k H1 H2; by rewrite !lookup_delete_ne|done].
    + simpl. exists (delete "name" d). split; [done|].
      split; [intros k H1 H2; by rewrite lookup_delete_ne|done].
  - simpl. exists d. done.
Qed.

End Frame.

(** An entry with a setting of its own, which registers. *)
Lemma register_consumes_name_and_models_witness :
  let out := StorageService.register_store_handler
               Samples.sample_import_plugin Samples.sample_repr
               Samples.sample_storage (JDict Samples.etcd_entry) in
  out.1.1 = Ok tt /\
  exists d',
    out.1.2 = JDict d' /\
    (forall k, k <> "name" -> k <> "models" ->
       d' !! k = Samples.etcd_entry !! k) /\
    d' = delete "models" (delete "name" Samples.etcd_entry).
Proof.
  intros out. split; [vm_compute; reflexivity|].
  destruct (register_consumes_name_and_models
              Samples.sample_import_plugin Samples.sample_repr
              Samples.sample_storage Samples.etcd_entry)
    as (d' & Harg & Hframe & Hok).
  exists d'. split; [exact Harg|]. split; [exact Hframe|].
  apply Hok. vm_compute; reflexivity.
Defined.

(* ================================================================= *)
(** ** Inbound dispatch: routing, calls that succeed, bad parameters *)

Section DispatchMore.

Import CommissaireService Samples Observe Observe2 Samples2.

Lemma rsplit_at_last sep a m :
  ~ In sep (String.list_ascii_of_string m) ->
  rsplit_at sep (a ++ String sep m) = Some (a, m).
Proof.
  intros Hm. apply (rsplit_at_None sep) in Hm.
  induction a as [|c a IH]; simpl.
  - by rewrite Hm, Ascii.eqb_refl.
  - by rewrite IH.
Qed.

(** X1: the method a message is expected to call is what follows the
    last dot of its routing key: on [prefix.m], where [m] holds no dot,
    it is [m], whatever the dots of [prefix]. *)
Theorem expected_method_is_the_last_segment tag prefix m reply :
  ~ In "."%char (String.list_ascii_of_string m) ->
  expected_method (Message tag (prefix ++ "." ++ m) reply) = Ok m.
Proof.
  intros Hm. unfold expected_method, rsplit1; simpl.
  change ("." ++ m) with (String "."%char m).
  by rewrite (rsplit_at_last "."%char prefix m Hm).
Qed.

Lemma expected_method_is_the_last_segment_witness :
  expected_method (Message 7 "commissaire.storage.save" None) = Ok "save".
Proof.
  apply (expected_method_is_the_last_segment 7 "commissaire.storage" "save").
  simpl. intros H. by repeat destruct H as [H|H].
Defined.

Lemma jsonrpc_call_None body expected :
  jget "method" body <> Some (JStr expected) ->
  jsonrpc_call body expected = None.
Proof.
  intros H. unfold jsonrpc_call. destruct body; try done. simpl in H.
  destruct (d !! "method") as [[]|]; try done.
  destruct (String.eqb_spec s expected) as [->|]; done.
Qed.

(** X2: a message that is not a call of the method its routing key
    names (its body is no mapping, has no [method], or another one) goes
    to [on_message]: with the [on_message] of [CommissaireService], it
    is acknowledged and nothing else is done: no handler is invoked and
    no reply is put, whether the message names a reply address or not. *)
Theorem other_message_is_acknowledged_and_dropped
    svc body msg expected w :
  expected_method msg = Ok expected ->
  jget "method" body <> Some (JStr expected) ->
  svc_on_message svc = on_message ->
  _wrap_on_message svc body msg w =
    (Ok tt, after w [EvAck (delivery_tag msg)]).
Proof.
  intros Hexp Hbody Hon.
  unfold _wrap_on_message, bind, lift.
  rewrite Hexp, (jsonrpc_call_None _ _ Hbody), Hon. done.
Qed.

Lemma other_message_is_acknowledged_and_dropped_witness :
  _wrap_on_message sample_service (JDict (call_body "pong"))
    (inbound "svc.ping") quiet_world =
    (Ok tt, after quiet_world [EvAck 7]).
Proof.
  apply (other_message_is_acknowledged_and_dropped sample_service
           (JDict (call_body "pong")) (inbound "svc.ping") "ping"
           quiet_world).
  - reflexivity.
  - vm_compute. discriminate.
  - reflexivity.
Defined.

Lemma unusable_params_raise fname d :
  unusable_params d ->
  exists e, call_args_of fname d = Raise e /\
    exc_class e <> AttributeError.
Proof.
  unfold unusable_params, call_args_of, getitem.
  destruct (d !! "params") as [[]|]; try done; intros _; simpl;
    eexists; (split; [reflexivity|done]).
Qed.

(** X4: a call with an id and a handler, whose body has no [params] or
    has for [params] a number, a boolean or [null]: the handler is not
    invoked (nothing is done in the [try]); the response is an error
    with code -32600, the id of the request and ["2.0"] for
    [jsonrpc]. *)
Theorem call_without_usable_params_is_refused svc d m msg id h w :
  d !! "id" = Some id ->
  svc_attr svc ("on_" ++ m) = Some h ->
  unusable_params d ->
  exists r,
    dispatch svc d m msg w = (Ok r, w) /\
    error_code r = Some (JNum (-32600)) /\
    jget "id" r = Some id /\
    jget "jsonrpc" r = Some (JStr "2.0").
Proof.
  intros Hid Hh Hparams.
  destruct (unusable_params_raise ("on_" ++ m) d Hparams) as (e & He & Hne).
  destruct (error_result_fields d id e Hid)
    as (r & Hr & Hrid & Hrpc & Hcode & _).
  exists r. unfold dispatch, try_except, call_method, bind, lift, getattr.
  rewrite Hh, He, Hr. rewrite bool_decide_eq_false_2 in Hcode by done.
  done.
Qed.

Lemma call_without_usable_params_is_refused_witness :
  exists r,
    dispatch sample_service {[ "id" := JNum 1; "method" := JStr "ping" ]}
      "ping" (inbound "svc.ping") quiet_world = (Ok r, quiet_world) /\
    error_code r = Some (JNum (-32600)) /\
    jget "id" r = Some (JNum 1) /\
    jget "jsonrpc" r = Some (JStr "2.0").
Proof.
  apply (call_without_usable_params_is_refused sample_service
           {[ "id" := JNum 1; "method" := JStr "ping" ]} "ping"
           (inbound "svc.ping") (JNum 1) (fun _ _ => Ok (JStr "pong"))
           quiet_world).
  - reflexivity.
  - reflexivity.
  - vm_compute. exact I.
Defined.

End DispatchMore.

(* ================================================================= *)
(** ** Inbound dispatch with handlers that act *)

Section ActingHandlers.

Import CommissaireService Samples Observe Acting ActingSamples.

Lemma state_after msg w evs :
  omap (settles msg) evs = [] ->
  state msg (after w evs) = state msg w.
Proof.
  intros Hevs. unfold state, after; simpl.
  by rewrite omap_app, Hevs, app_nil_r.
Qed.

Lemma acks_of_app msg t1 t2 :
  acks_of msg (t1 ++ t2) = acks_of msg t1 + acks_of msg t2.
Proof. unfold acks_of. by rewrite List.filter_app, length_app. Qed.

Lemma not_acknowledged_acks_of msg w :
  state msg w = None -> acks_of msg (w_trace w) = 0.
Proof.
  unfold state, acks_of. intros H%last_None.
  induction (w_trace w) as [|e t IH]; [done|].
  simpl in *. destruct e; simpl in *; try by apply IH.
  - destruct (Z.eqb tag (delivery_tag msg)); [done|by apply IH].
  - destruct (Z.eqb tag (delivery_tag msg)); [done|by apply IH].
Qed.

Lemma answer_events_acks_of msg r : acks_of msg (answer_events msg r) = 1.
Proof.
  unfold answer_events, acks_of; simpl. rewrite Z.eqb_refl.
  by destruct (reply_address msg).
Qed.

(** With an id in the body the [try ... except] statement always yields
    a [result], whatever the handler does. *)
Lemma dispatch_yields svc d m msg id w :
  d !! "id" = Some id ->
  exists r w1, dispatch svc d m msg w = (Ok r, w1).
Proof.
  intros Hid. unfold dispatch, try_except.
  destruct (call_method svc d m msg w) as [[r|e] w1]; [eauto|].
  destruct (error_result_fields d id e Hid) as (r & Hr & _).
  exists r, w1. unfold lift. by rewrite Hr.
Qed.

(** What the engine does once [result] is known and the body has an
    id. *)
Lemma wrap_after_the_try svc body msg expected d id r w w1 :
  expected_method msg = Ok expected ->
  jsonrpc_call body expected = Some d ->
  d !! "id" = Some id ->
  dispatch svc d expected msg w = (Ok r, w1) ->
  match state msg w1 with
  | Some settled =>
      _wrap_on_message svc body msg w =
        (Raise (already_acknowledged settled), w1)
  | None =>
      (_wrap_on_message svc body msg w).1 = Ok tt /\
      w_trace (_wrap_on_message svc body msg w).2 =
        (w_trace w1 ++ answer_events msg r)%list
  end.
Proof.
  intros Hexp Hcall Hid Hdisp.
  unfold _wrap_on_message, bind, lift. rewrite Hexp, Hcall, Hdisp.
  unfold getitem. rewrite Hid. unfold ack.
  destruct (state msg w1); [done|].
  unfold answer_events.
  destruct (reply_address msg) as [address|]; simpl.
  - split; [done|]. by rewrite <- !app_assoc.
  - done.
Qed.

(** The world that the [try] of the engine of handlers that only
    compute leaves: at most the record of the call was added. *)
Lemma computing_dispatch_world svc d m msg w :
  exists evs,
    (CommissaireService.dispatch svc d m msg w).2 = after w evs /\
    omap (settles msg) evs = [].
Proof.
  unfold CommissaireService.dispatch, try_except,
    CommissaireService.call_method, bind, lift, CommissaireService.getattr,
    emit.
  destruct (CommissaireService.svc_attr svc ("on_" ++ m)) as [h|]; simpl.
  - destruct (call_args_of ("on_" ++ m) d) as [args|e]; simpl.
    + exists [EvCall ("on_" ++ m) args].
      split; [|done]. by destruct (h msg args).
    + exists []. by rewrite after_nil.
  - exists []. by rewrite after_nil.
Qed.

(** A service whose handlers only compute is served alike by both
    engines, on a message that is not settled yet. *)
Lemma computing_service_is_served_alike svc body msg w :
  state msg w = None ->
  _wrap_on_message (of_computing svc) body msg w =
    CommissaireService._wrap_on_message svc body msg w.
Proof.
  intros Hnew.
  assert (Hdisp : forall d m,
            dispatch (of_computing svc) d m msg w =
              CommissaireService.dispatch svc d m msg w).
  { intros d m.
    unfold dispatch, CommissaireService.dispatch, try_except, call_method,
      CommissaireService.call_method, bind, lift, getattr,
      CommissaireService.getattr, of_computing, computing; simpl.
    destruct (CommissaireService.svc_attr svc ("on_" ++ m)) as [h|];
      simpl; [|done].
    by destruct (call_args_of ("on_" ++ m) d). }
  unfold _wrap_on_message, CommissaireService._wrap_on_message, bind.
  destruct (lift (expected_method msg) w) as [[expected|e] w0] eqn:Hexp;
    [|done].
  assert (w0 = w) as -> by (unfold lift in Hexp; congruence).
  destruct (jsonrpc_call body expected) as [d|]; [|done].
  rewrite Hdisp.
  destruct (computing_dispatch_world svc d expected msg w)
    as (evs & Hw & Hevs).
  destruct (CommissaireService.dispatch svc d expected msg w)
    as [[r|e] w1]; [|done].
  simpl in Hw. subst w1. unfold lift.
  destruct (getitem d "id"); [|done].
  unfold ack. by rewrite (state_after _ _ _ Hevs), Hnew.
Qed.

(** X3: a call whose body has an id, whose handler returns [v] and has
    left the message unacknowledged (it has not acknowledged, rejected
    or requeued it): the call is recorded and the
    handler runs, whatever it does on the bus; then the engine
    acknowledges the message and, if the message names a reply address,
    declares the queue of that name, puts [{'result': v}] on it and
    closes it; the engine does nothing else. *)
Theorem handler_that_returns_is_answered
    svc body msg expected d id h args v w w' :
  expected_method msg = Ok expected ->
  jsonrpc_call body expected = Some d ->
  d !! "id" = Some id ->
  svc_attr svc ("on_" ++ expected) = Some h ->
  call_args_of ("on_" ++ expected) d = Ok args ->
  h msg args (after w [EvCall ("on_" ++ expected) args]) = (Ok v, w') ->
  acknowledged msg w' = false ->
  (_wrap_on_message svc body msg w).1 = Ok tt /\
  w_trace (_wrap_on_message svc body msg w).2 =
    (w_trace w' ++
     EvAck (delivery_tag msg) ::
     match reply_address msg with
     | Some address =>
         [EvDeclare address default_queue_opts;
          EvPut address (JDict {[ "result" := v ]});
          EvClose address]
     | None => []
     end)%list.
Proof.
  intros Hexp Hcall Hid Hh Hargs Hv Hnew.
  assert (Hdisp : dispatch svc d expected msg w = (Ok v, w')).
  { unfold dispatch, try_except, call_method, bind, lift, getattr, emit.
    rewrite Hh, Hargs. simpl. fold (after w [EvCall ("on_" ++ expected) args]).
    by rewrite Hv. }
  pose proof (wrap_after_the_try _ _ _ _ _ _ _ _ _ Hexp Hcall Hid Hdisp) as H.
  unfold acknowledged in Hnew. by destruct (state msg w').
Qed.

(** [on_audit] puts a line on another queue before it returns. *)
Lemma handler_that_returns_is_answered_witness :
  let out := _wrap_on_message acting_service (JDict (call_body "audit"))
               (inbound "svc.audit") quiet_world in
  out.1 = Ok tt /\
  w_trace out.2 =
    [EvCall "on_audit" (ArgsKw ∅);
     EvDeclare "audit" default_queue_opts;
     EvPut "audit" (JStr "seen");
     EvClose "audit";
     EvAck 7;
     EvDeclare "response-1" default_queue_opts;
     EvPut "response-1" (JDict {[ "result" := JStr "ok" ]});
     EvClose "response-1"].
Proof.
  apply (handler_that_returns_is_answered acting_service
           (JDict (call_body "audit")) (inbound "svc.audit") "audit"
           (call_body "audit") (JNum 1) on_audit (ArgsKw ∅) (JStr "ok")
           quiet_world
           (on_audit (inbound "svc.audit") (ArgsKw ∅)
              (after quiet_world [EvCall "on_audit" (ArgsKw ∅)])).2);
    reflexivity.
Defined.

(** X24: with an id in the body, the engine acknowledges the message
    once the [try] statement has ended.  If the message is not settled
    when the [try] ends, it is acknowledged then, once in all, after
    everything the handler did.  If the handler has acknowledged it, as
    [on_message] does, or rejected or requeued it, the [message.ack()]
    of the engine raises [MessageStateError] into the consumer: the
    world is as the [try] left it and no reply is put. *)
Theorem message_is_acknowledged_after_the_try
    svc body msg expected d id w :
  expected_method msg = Ok expected ->
  jsonrpc_call body expected = Some d ->
  d !! "id" = Some id ->
  exists r w1,
    dispatch svc d expected msg w = (Ok r, w1) /\
    match state msg w1 with
    | Some settled =>
        _wrap_on_message svc body msg w =
          (Raise (already_acknowledged settled), w1)
    | None =>
        (_wrap_on_message svc body msg w).1 = Ok tt /\
        exists rest,
          w_trace (_wrap_on_message svc body msg w).2 =
            (w_trace w1 ++ EvAck (delivery_tag msg) :: rest)%list /\
          acks rest = 0 /\ invoked rest = [] /\
          acks_of msg (w_trace (_wrap_on_message svc body msg w).2) = 1
    end.
Proof.
  intros Hexp Hcall Hid.
  destruct (dispatch_yields svc d expected msg id w Hid) as (r & w1 & Hdisp).
  exists r, w1. split; [done|].
  pose proof (wrap_after_the_try _ _ _ _ _ _ _ _ _ Hexp Hcall Hid Hdisp) as H.
  destruct (state msg w1) eqn:Hstate; [done|].
  destruct H as [H1 H2]. split; [done|].
  eexists. split; [exact H2|].
  split; [by destruct (reply_address msg)|].
  split; [by destruct (reply_address msg)|].
  rewrite H2, acks_of_app, answer_events_acks_of.
  by rewrite (not_acknowledged_acks_of _ _ Hstate).
Qed.

(** A call of the method [message], which [getattr] resolves to
    [on_message]: the handler acknowledges the message, and the engine
    raises where it acknowledges it again; a call of [on_defer], which
    requeues the message; a call of [on_ping]. *)
Lemma message_is_acknowledged_after_the_try_witness :
  _wrap_on_message acting_service (JDict message_call)
    (inbound "svc.message") quiet_world =
    (Raise (already_acknowledged "ACK"),
     after quiet_world
       [EvCall "on_message" (ArgsKw {[ "body" := JStr "hello" ]});
        EvAck 7]) /\
  _wrap_on_message acting_service (JDict (call_body "defer"))
    (inbound "svc.defer") quiet_world =
    (Raise (already_acknowledged "REQUEUED"),
     after quiet_world [EvCall "on_defer" (ArgsKw ∅); EvReject 7 true]) /\
  acks_of (inbound "svc.ping")
    (w_trace (_wrap_on_message acting_service (JDict (call_body "ping"))
                (inbound "svc.ping") quiet_world).2) = 1.
Proof.
  split; [|split].
  - destruct (message_is_acknowledged_after_the_try acting_service
                (JDict message_call) (inbound "svc.message") "message"
                message_call (JNum 1) quiet_world eq_refl eq_refl eq_refl)
      as (r & w1 & Hdisp & H).
    vm_compute in Hdisp. injection Hdisp as <- <-. exact H.
  - destruct (message_is_acknowledged_after_the_try acting_service
                (JDict (call_body "defer")) (inbound "svc.defer") "defer"
                (call_body "defer") (JNum 1) quiet_world eq_refl eq_refl
                eq_refl)
      as (r & w1 & Hdisp & H).
    vm_compute in Hdisp. injection Hdisp as <- <-. exact H.
  - destruct (message_is_acknowledged_after_the_try acting_service
                (JDict (call_body "ping")) (inbound "svc.ping") "ping"
                (call_body "ping") (JNum 1) quiet_world eq_refl eq_refl
                eq_refl)
      as (r & w1 & Hdisp & H).
    vm_compute in Hdisp. injection Hdisp as <- <-.
    destruct H as (_ & rest & _ & _ & _ & H). exact H.
Defined.

(** X25: with an id in the body and a reply address on the message,
    when the [try] ends with the message unacknowledged the engine puts
    one payload, on the queue of that address, after whatever the
    handler has put: it is [{'result': result}], a mapping with the
    single key [result], without [id] and without [jsonrpc] key, for
    results and for errors alike.  When the handler has acknowledged,
    rejected or requeued the message, the engine puts nothing. *)
Theorem reply_is_the_result_alone
    svc body msg expected d id address w :
  expected_method msg = Ok expected ->
  jsonrpc_call body expected = Some d ->
  d !! "id" = Some id ->
  reply_address msg = Some address ->
  exists r w1,
    dispatch svc d expected msg w = (Ok r, w1) /\
    published (w_trace (_wrap_on_message svc body msg w).2) =
      (published (w_trace w1) ++
       if acknowledged msg w1 then []
       else [(address, reply_payload r)])%list /\
    jget "result" (reply_payload r) = Some r /\
    jget "id" (reply_payload r) = None /\
    jget "jsonrpc" (reply_payload r) = None.
Proof.
  intros Hexp Hcall Hid Haddr.
  destruct (dispatch_yields svc d expected msg id w Hid) as (r & w1 & Hdisp).
  exists r, w1. split; [done|]. split; [|apply reply_payload_keys].
  pose proof (wrap_after_the_try _ _ _ _ _ _ _ _ _ Hexp Hcall Hid Hdisp) as H.
  unfold acknowledged. destruct (state msg w1).
  - rewrite H. simpl. by rewrite app_nil_r.
  - destruct H as [_ ->].
    by rewrite published_app, answer_events_published, Haddr.
Qed.

(** The reply to a call of [on_fail], which raises. *)
Lemma reply_is_the_result_alone_witness :
  exists r,
    published (w_trace (_wrap_on_message acting_service
                          (JDict (call_body "fail")) (inbound "svc.fail")
                          quiet_world).2) =
      [("response-1", JDict {[ "result" := r ]})] /\
    error_message r = Some (JStr "bad value") /\
    jget "id" (JDict {[ "result" := r ]}) = None.
Proof.
  destruct (reply_is_the_result_alone acting_service
              (JDict (call_body "fail")) (inbound "svc.fail") "fail"
              (call_body "fail") (JNum 1) "response-1" quiet_world
              eq_refl eq_refl eq_refl eq_refl)
    as (r & w1 & Hdisp & Hpub & _ & Hid & _).
  exists r. vm_compute in Hdisp. injection Hdisp as <- <-.
  split; [exact Hpub|]. split; [reflexivity|exact Hid].
Defined.

(** X26: a call whose body has no id: whatever the handler does
    (returns, raises, is missing), [KeyError('id')] leaves
    [_wrap_on_message], and the engine does nothing after the [try]: the
    world is as the call of the handler left it, so the engine neither
    acknowledges the message nor puts a reply. *)
Theorem call_without_id_ends_at_the_try svc body msg expected d w :
  expected_method msg = Ok expected ->
  jsonrpc_call body expected = Some d ->
  d !! "id" = None ->
  _wrap_on_message svc body msg w =
    (Raise (key_error "id"), (call_method svc d expected msg w).2).
Proof.
  intros Hexp Hcall Hid.
  unfold _wrap_on_message, bind, lift. rewrite Hexp, Hcall.
  unfold dispatch, try_except, error_result, getitem. rewrite Hid.
  by destruct (call_method svc d expected msg w) as [[r|e] w1].
Qed.

(** [on_audit] has put its line; the engine adds nothing. *)
Lemma call_without_id_ends_at_the_try_witness :
  let out := _wrap_on_message acting_service
               (JDict (call_body_without_id "audit"))
               (inbound "svc.audit") quiet_world in
  out.1 = Raise (key_error "id") /\
  w_trace out.2 =
    [EvCall "on_audit" (ArgsKw ∅);
     EvDeclare "audit" default_queue_opts;
     EvPut "audit" (JStr "seen");
     EvClose "audit"].
Proof.
  simpl.
  rewrite (call_without_id_ends_at_the_try acting_service
             (JDict (call_body_without_id "audit")) (inbound "svc.audit")
             "audit" (call_body_without_id "audit") quiet_world
             eq_refl eq_refl eq_refl).
  split; reflexivity.
Defined.

End ActingHandlers.

(* ================================================================= *)
(** ** The handlers of the storage service, as the engine calls them *)

Section StorageCalls.

Import CommissaireService Samples Observe Observe2 Samples2.

Variable json_loads : string -> res json.
Variable model_new : pyclass -> gmap string json -> res json.
Variable to_dict : json -> json.
Variable store : Type.
Variable manager_save : store -> json -> res json * store.
Variable manager_get : store -> json -> res json * store.
Variable manager_delete : store -> json -> res unit * store.
Variable manager_list : store -> json -> res (list json) * store.

#[local] Abbreviation storage_handlers :=
  (StorageRPC.handlers json_loads model_new to_dict store
     manager_save manager_get manager_delete manager_list).

(** Every handler of the storage service is a method whose first
    parameter is [message], under the name of its attribute. *)
Lemma storage_handlers_are_methods self st name h :
  (name, h) ∈ storage_handlers self st ->
  exists params body, h = PyCall.method name params body.
Proof.
  unfold StorageRPC.handlers. rewrite !elem_of_cons, elem_of_nil.
  intros [H|[H|[H|[H|[H|[]]]]]]; injection H as -> ->; by eexists _, _.
Qed.

(** X5: ordered [params] that are not empty never reach the body of a
    handler of the storage service ([on_save], [on_get], [on_delete],
    [on_list], [on_list_store_handlers]): [method( *params,
    message=message)] gives [message] twice, the call raises
    [TypeError] and the response is an error with code -32600, whose
    message is ["<name>() got multiple values for argument
    'message'"]. *)
Theorem ordered_params_never_reach_a_storage_handler
    self st svc name h d m msg id x xs w :
  (name, h) ∈ storage_handlers self st ->
  name = "on_" ++ m ->
  svc_attr svc name = Some h ->
  d !! "id" = Some id ->
  d !! "params" = Some (JList (x :: xs)) ->
  exists r,
    dispatch svc d m msg w =
      (Ok r, after w [EvCall name (ArgsPos (x :: xs))]) /\
    error_code r = Some (JNum (-32600)) /\
    error_message r =
      Some (JStr (name ++ "() got multiple values for argument 'message'")) /\
    error_exception r = Some (JStr "<class 'TypeError'>") /\
    jget "id" r = Some id.
Proof.
  intros Hin -> Hattr Hid Hparams.
  destruct (storage_handlers_are_methods _ _ _ _ Hin) as (params & body & ->).
  set (e := PyExc TypeError
              (("on_" ++ m) ++ "() got multiple values for argument 'message'")).
  destruct (error_result_fields d id e Hid)
    as (r & Hr & Hrid & _ & Hcode & Hmsg & Hexc).
  exists r. unfold dispatch, try_except.
  rewrite (call_method_handler _ _ _ _ _ (ArgsPos (x :: xs)) _ Hattr).
  - unfold PyCall.method; simpl. fold e. unfold lift. rewrite Hr. done.
  - unfold call_args_of, getitem. by rewrite Hparams.
Qed.

Lemma unexpected_all (kw : gmap string json) :
  kw <> ∅ -> PyCall.unexpected [] kw <> [].
Proof.
  intros Hne. unfold PyCall.unexpected.
  destruct (map_to_list kw) as [|[k v] l] eqn:Hl.
  - by apply map_to_list_empty_iff in Hl.
  - done.
Qed.

(** X6: a call of [list_store_handlers] with an id: with empty
    [params], keyed or ordered, the result is the list that
    [on_list_store_handlers] gives; with keyed [params] that hold a
    key, the call raises [TypeError] and the response is an error with
    code -32600: the method takes no argument. *)
Theorem list_store_handlers_call self svc d msg id w :
  svc_attr svc "on_list_store_handlers" =
    Some (StorageRPC.on_list_store_handlers_method self) ->
  d !! "id" = Some id ->
  ((d !! "params" = Some (JDict ∅) \/ d !! "params" = Some (JList [])) ->
   exists args,
     dispatch svc d "list_store_handlers" msg w =
       (Ok (JList (StorageService.on_list_store_handlers self)),
        after w [EvCall "on_list_store_handlers" args])) /\
  (forall kw, d !! "params" = Some (JDict kw) -> kw <> ∅ ->
   exists r,
     dispatch svc d "list_store_handlers" msg w =
       (Ok r, after w [EvCall "on_list_store_handlers" (ArgsKw kw)]) /\
     error_code r = Some (JNum (-32600)) /\
     error_exception r = Some (JStr "<class 'TypeError'>")).
Proof.
  intros Hattr Hid. split.
  - intros [Hp|Hp].
    + exists (ArgsKw ∅). unfold dispatch, try_except.
      rewrite (call_method_handler _ _ _ _ _ (ArgsKw ∅) _ Hattr); [done|].
      unfold call_args_of, getitem. by rewrite Hp.
    + exists (ArgsPos []). unfold dispatch, try_except.
      rewrite (call_method_handler _ _ _ _ _ (ArgsPos []) _ Hattr); [done|].
      unfold call_args_of, getitem. by rewrite Hp.
  - intros kw Hp Hne.
    assert (exists text,
              StorageRPC.on_list_store_handlers_method self msg (ArgsKw kw) =
                Raise (PyExc TypeError text)) as [text Hraise].
    { unfold StorageRPC.on_list_store_handlers_method, PyCall.method,
        PyCall.bind_args.
      case_bool_decide; [by eexists|].
      pose proof (unexpected_all kw Hne).
      destruct (PyCall.unexpected [] kw); [done|by eexists]. }
    destruct (error_result_fields d id (PyExc TypeError text) Hid)
      as (r & Hr & _ & _ & Hcode & _ & Hexc).
    exists r. unfold dispatch, try_except.
    rewrite (call_method_handler _ _ _ _ _ (ArgsKw kw) _ Hattr).
    + rewrite Hraise. unfold lift. rewrite Hr. done.
    + unfold call_args_of, getitem. by rewrite Hp.
Qed.

End StorageCalls.

Section StorageCallsOnSamples.

Import CommissaireService Samples Observe Observe2 Samples2.

Lemma ordered_params_never_reach_a_storage_handler_witness :
  exists r,
    dispatch storage_service
      {[ "id" := JNum 1; "method" := JStr "save";
         "params" := JList [JStr "NodeModel"; JDict ∅] ]}
      "save" (inbound "storage.save") quiet_world =
      (Ok r, after quiet_world
               [EvCall "on_save" (ArgsPos [JStr "NodeModel"; JDict ∅])]) /\
    error_code r = Some (JNum (-32600)) /\
    error_message r =
      Some (JStr "on_save() got multiple values for argument 'message'") /\
    error_exception r = Some (JStr "<class 'TypeError'>") /\
    jget "id" r = Some (JNum 1).
Proof.
  apply (ordered_params_never_reach_a_storage_handler
           sample_json_loads sample_model_new (fun m => m) (list json)
           sample_save sample_get sample_delete sample_list
           listing_storage [] storage_service "on_save"
           (StorageRPC.on_save_method sample_json_loads sample_model_new
              (fun m => m) (list json) sample_save listing_storage [])
           {[ "id" := JNum 1; "method" := JStr "save";
              "params" := JList [JStr "NodeModel"; JDict ∅] ]}
           "save" (inbound "storage.save") (JNum 1)).
  - apply elem_of_cons. by left.
  - reflexivity.
  - reflexivity.
  - reflexivity.
  - reflexivity.
Defined.

Lemma list_store_handlers_call_witness :
  exists args,
    dispatch storage_service
      {[ "id" := JNum 1; "method" := JStr "list_store_handlers";
         "params" := JDict ∅ ]}
      "list_store_handlers" (inbound "storage.list_store_handlers")
      quiet_world =
      (Ok (JList (StorageService.on_list_store_handlers listing_storage)),
       after quiet_world [EvCall "on_list_store_handlers" args]).
Proof.
  apply (list_store_handlers_call listing_storage storage_service
           {[ "id" := JNum 1; "method" := JStr "list_store_handlers";
              "params" := JDict ∅ ]}
           (inbound "storage.list_store_handlers") (JNum 1) quiet_world).
  - reflexivity.
  - reflexivity.
  - left. reflexivity.
Defined.

End StorageCallsOnSamples.

(* ================================================================= *)
(** ** Outbound calls: options, replies that are no object, round trips *)

Section RequestMore.

Import CommissaireService Samples Observe Observe2 Samples2.

Lemma delivered_app q t1 t2 :
  delivered q (t1 ++ t2) = (delivered q t1 ++ delivered q t2)%list.
Proof. unfold delivered. by rewrite omap_app. Qed.

(** What [request] returns when a reply that is an object is there. *)
Lemma request_returns_the_reply routing_key method params w d rest :
  w_inbox w !! ("response-" ++ w_uuid w (w_uuid_next w)) =
    Some (JDict d :: rest) ->
  (request routing_key method params None w).1 = Ok (JDict d).
Proof.
  intros Hin.
  unfold request, bind, create_id, SimpleQueue, publish, queue_get, emit,
    set_queues, ret, bind, receive, queue_close, lift; simpl.
  rewrite Hin. done.
Qed.

(** X7: a reply that is not an object (a string, a list, a number,
    [null]): [request] acknowledges it, then raises [AttributeError]
    where it reads the keys of the payload; the reply queue is not
    closed and still exists. *)
Theorem request_with_a_reply_that_is_no_object
    routing_key method params w v rest :
  let id := w_uuid w (w_uuid_next w) in
  let name := "response-" ++ id in
  w_inbox w !! name = Some (v :: rest) ->
  (forall d, v <> JDict d) ->
  let out := request routing_key method params None w in
  out.1 = Raise (PyExc AttributeError
                   ("'" ++ type_name v ++ "' object has no attribute 'keys'")) /\
  w_trace out.2 =
    (w_trace w ++
     [EvDeclare name reply_queue_opts;
      EvPublish routing_key (jsonrpc_msg id method params) name;
      EvGet name 3; EvAckReply name])%list /\
  is_Some (w_queues out.2 !! name).
Proof.
  intros id name Hin Hv out. subst out.
  unfold request, bind, create_id, SimpleQueue, publish, queue_get, emit,
    set_queues, ret, bind, receive, queue_close, lift; simpl.
  fold id. fold name. rewrite Hin. simpl.
  assert (Hkeys : payload_keys v =
            Raise (PyExc AttributeError
                     ("'" ++ type_name v ++ "' object has no attribute 'keys'"))).
  { destruct v; try done. by destruct (Hv d). }
  rewrite Hkeys. simpl. split; [done|]. split; [by rewrite <- !app_assoc|].
  apply subscribe_is_Some, declare_is_Some.
Qed.

Lemma request_with_a_reply_that_is_no_object_witness :
  let out := request "storage.save" "save" (JDict ∅) None
               (answering_world (JStr "saved")) in
  out.1 = Raise (PyExc AttributeError "'str' object has no attribute 'keys'") /\
  w_trace out.2 =
    [EvDeclare "response-uuid-0" reply_queue_opts;
     EvPublish "storage.save" (jsonrpc_msg "uuid-0" "save" (JDict ∅))
       "response-uuid-0";
     EvGet "response-uuid-0" 3; EvAckReply "response-uuid-0"] /\
  is_Some (w_queues out.2 !! "response-uuid-0").
Proof.
  apply (request_with_a_reply_that_is_no_object "storage.save" "save"
           (JDict ∅) (answering_world (JStr "saved")) (JStr "saved") []).
  - reflexivity.
  - intros d. discriminate.
Defined.

(** X8: a caller that gives [request] a [queue_opts] keyword.  When
    the dict sets a key, the options of the reply queue are
    [auto_delete] and not [durable], each replaced by what the dict
    sets: with [auto_delete] set to false, the reply queue is left on
    the broker when the call returns.  When the dict is empty, it is not
    taken out of the keywords and [SimpleQueue] is given [queue_opts]
    twice: [TypeError] is raised before any queue is declared. *)
Theorem request_queue_opts_of_the_caller
    routing_key method params w u d rest :
  let id := w_uuid w (w_uuid_next w) in
  let name := "response-" ++ id in
  let opts :=
    {| auto_delete := default true (set_auto_delete u);
       durable := default false (set_durable u) |} in
  w_inbox w !! name = Some (JDict d :: rest) ->
  w_queues w !! name = None ->
  let out := request routing_key method params (Some u) w in
  if sets_a_key u then
    out.1 = Ok (JDict d) /\
    declared (w_trace out.2) = (declared (w_trace w) ++ [(name, opts)])%list /\
    w_queues out.2 !! name =
      if auto_delete opts then None else Some (QueueState opts 0)
  else
    (exists e, out.1 = Raise e /\ exc_class e = TypeError) /\
    w_trace out.2 = w_trace w /\
    w_queues out.2 = w_queues w.
Proof.
  intros id name opts Hin Hq out. subst out.
  unfold request, bind, create_id. simpl. fold id. fold name.
  destruct (sets_a_key u) eqn:Hu.
  - unfold ret, SimpleQueue, publish, queue_get, emit,
      set_queues, ret, bind, receive, queue_close, lift; simpl.
    rewrite Hin. simpl.
    split; [done|]. split.
    + unfold declared. rewrite <- !app_assoc, omap_app. done.
    + unfold unsubscribe, subscribe, update_queue_opts; simpl.
      rewrite (declare_fresh _ _ _ Hq). rewrite !lookup_insert_eq. simpl.
      subst opts. destruct u as [[[]|] sd]; simpl.
      * by rewrite lookup_delete_eq.
      * by rewrite lookup_insert_eq.
      * by rewrite lookup_delete_eq.
  - unfold raise. simpl. split; [|done]. eexists. split; reflexivity.
Qed.

(** A caller that sets [auto_delete] to false, and one that gives an
    empty dict. *)
Lemma request_queue_opts_of_the_caller_witness :
  let reply := {[ "result" := JStr "saved" ]} in
  let opts := {| auto_delete := false; durable := false |} in
  let out := request "storage.save" "save" (JDict ∅)
               (Some (QueueOptsUpdate (Some false) None))
               (answering_world (JDict reply)) in
  let refused := request "storage.save" "save" (JDict ∅)
                   (Some (QueueOptsUpdate None None))
                   (answering_world (JDict reply)) in
  (out.1 = Ok (JDict reply) /\
   declared (w_trace out.2) = [("response-uuid-0", opts)] /\
   w_queues out.2 !! "response-uuid-0" = Some (QueueState opts 0)) /\
  ((exists e, refused.1 = Raise e /\ exc_class e = TypeError) /\
   w_trace refused.2 = [] /\
   w_queues refused.2 = ∅).
Proof.
  split.
  - apply (request_queue_opts_of_the_caller "storage.save" "save" (JDict ∅)
             (answering_world (JDict {[ "result" := JStr "saved" ]}))
             (QueueOptsUpdate (Some false) None)
             {[ "result" := JStr "saved" ]} []); reflexivity.
  - apply (request_queue_opts_of_the_caller "storage.save" "save" (JDict ∅)
             (answering_world (JDict {[ "result" := JStr "saved" ]}))
             (QueueOptsUpdate None None)
             {[ "result" := JStr "saved" ]} []); reflexivity.
Defined.

Lemma respond_delivers name rid payload kwargs w0 :
  delivered name (w_trace (respond name rid payload kwargs w0).2) =
    (delivered name (w_trace w0) ++
     [JDict {[ "jsonrpc" := JStr "2.0"; "id" := rid; "result" := payload ]}])%list.
Proof.
  unfold respond, bind, SimpleQueue, queue_put, queue_close, emit,
    set_queues, ret, bind; simpl.
  rewrite !delivered_app. simpl. rewrite String.eqb_refl.
  by rewrite !app_nil_r.
Qed.

(** X9: [respond] and [request] agree: when what a responder puts on
    the reply queue of a call with [respond(queue, id, payload)] is
    what reaches the queue, [request] returns that envelope as it is:
    its [jsonrpc] is ["2.0"], its [id] the id the responder gave and
    its [result] the payload. *)
Theorem reply_sent_with_respond_is_returned
    routing_key method params w w0 rid payload kwargs :
  let id := w_uuid w (w_uuid_next w) in
  let name := "response-" ++ id in
  delivered name (w_trace w0) = [] ->
  w_inbox w !! name =
    Some (delivered name (w_trace (respond name rid payload kwargs w0).2)) ->
  exists reply,
    (request routing_key method params None w).1 = Ok reply /\
    jget "jsonrpc" reply = Some (JStr "2.0") /\
    jget "id" reply = Some rid /\
    jget "result" reply = Some payload.
Proof.
  intros id name Hfresh Hin.
  rewrite respond_delivers, Hfresh in Hin. simpl in Hin.
  eexists. split; [exact (request_returns_the_reply _ _ _ _ _ [] Hin)|].
  simpl. by simplify_map_eq.
Qed.

Lemma reply_sent_with_respond_is_returned_witness :
  exists reply,
    (request "storage.save" "save" (JDict ∅) None
       (answering_world
          (JDict {[ "jsonrpc" := JStr "2.0"; "id" := JStr "uuid-0";
                    "result" := JStr "saved" ]}))).1 = Ok reply /\
    jget "jsonrpc" reply = Some (JStr "2.0") /\
    jget "id" reply = Some (JStr "uuid-0") /\
    jget "result" reply = Some (JStr "saved").
Proof.
  apply (reply_sent_with_respond_is_returned "storage.save" "save" (JDict ∅)
           (answering_world
              (JDict {[ "jsonrpc" := JStr "2.0"; "id" := JStr "uuid-0";
                        "result" := JStr "saved" ]}))
           quiet_world (JStr "uuid-0") (JStr "saved") None); reflexivity.
Defined.




End RequestMore.

(* ================================================================= *)
(** ** The supervisor: any turn of the loop *)

Section SupervisorMore.

Import ServiceManager.

(** X11: a manager made for [process_count] workers, at least one:
    [run] never raises, and after the launch and any number of turns of
    the loop, whatever tasks were found complete at each turn, it
    tracks [process_count] tasks, all distinct and all launched, and
    has launched [process_count] tasks plus one per replacement
    warned of. *)
Theorem run_keeps_the_pool process_count self polls :
  __init__ process_count = Ok self ->
  exists st,
    run self polls = Ok st /\
    length (_asyncs st) = process_count /\
    NoDup (_asyncs st) /\
    Forall (fun t => t < launched st) (_asyncs st) /\
    launched st = process_count + warned st.
Proof.
  intros Hinit.
  destruct (run_invariant process_count self polls Hinit)
    as (st & Hrun & (Hlen & Hnd & Hlt & Hcount) & Hpc).
  exists st. rewrite Hpc in *. done.
Qed.

Lemma run_keeps_the_pool_witness :
  exists st,
    run {| _process_count := 2; _asyncs := []; launched := 0; warned := 0 |}
        [fun _ => true; fun t => bool_decide (t = 3)] = Ok st /\
    length (_asyncs st) = 2 /\
    NoDup (_asyncs st) /\
    Forall (fun t => t < launched st) (_asyncs st) /\
    launched st = 2 + warned st.
Proof.
  apply (run_keeps_the_pool 2
           {| _process_count := 2; _asyncs := []; launched := 0; warned := 0 |}
           [fun _ => true; fun t => bool_decide (t = 3)]).
  reflexivity.
Defined.

(** X12: a turn of the loop in which no tracked task is complete
    changes nothing: no task is dropped, none is launched, no warning
    is logged. *)
Theorem poll_with_nothing_ready ready st :
  (forall t, t ∈ _asyncs st -> ready t = false) ->
  poll ready st = Ok st.
Proof.
  intros Hnone. apply for_asyncs_none_ready.
  intros j t _ Hj. apply Hnone. by eapply list_elem_of_lookup_2.
Qed.

Lemma poll_with_nothing_ready_witness :
  poll (fun t => bool_decide (t = 7))
    {| _process_count := 3; _asyncs := [0; 1; 2]; launched := 3; warned := 0 |}
  = Ok {| _process_count := 3; _asyncs := [0; 1; 2];
          launched := 3; warned := 0 |}.
Proof.
  apply (poll_with_nothing_ready (fun t => bool_decide (t = 7))).
  simpl. intros t Ht. apply bool_decide_eq_false_2. intros ->.
  apply list_elem_of_In in Ht. simpl in Ht. lia.
Defined.

(** The pass from position [k] leaves what is before [k] as it is. *)
Lemma for_asyncs_keeps_before ready n k st st' :
  pool_invariant st ->
  for_asyncs ready n k st = Ok st' ->
  forall j, j < k -> _asyncs st' !! j = _asyncs st !! j.
Proof.
  revert k st. induction n as [|n IH]; intros k st Hinv Hfor j Hj; simpl in *.
  - by injection Hfor as <-.
  - destruct (_asyncs st !! k) as [x|] eqn:Hk; [|by injection Hfor as <-].
    destruct (ready x); [|by apply (IH (S k) st Hinv Hfor); lia].
    pose proof Hinv as (_ & Hnd & _).
    pose proof (replace_at st k x Hnd Hk) as Hrep. rewrite Hrep in Hfor.
    rewrite (IH (S k) _ (replace_invariant st k x _ Hinv Hk Hrep) Hfor j)
      by lia.
    simpl. apply lookup_lt_Some in Hk.
    rewrite lookup_app_l.
    + by apply list_lookup_delete_lt.
    + rewrite length_delete by (apply lookup_lt_is_Some; lia). lia.
Qed.

(** What the pass tracks at its end was tracked at its start or was
    launched since. *)
Lemma for_asyncs_elements ready n k st st' :
  pool_invariant st ->
  for_asyncs ready n k st = Ok st' ->
  forall x, x ∈ _asyncs st' -> x ∈ _asyncs st \/ launched st <= x.
Proof.
  revert k st. induction n as [|n IH]; intros k st Hinv Hfor x Hx; simpl in *.
  - injection Hfor as <-. by left.
  - destruct (_asyncs st !! k) as [y|] eqn:Hk;
      [|injection Hfor as <-; by left].
    destruct (ready y); [|by apply (IH (S k) st Hinv Hfor)].
    pose proof Hinv as (_ & Hnd & _).
    pose proof (replace_at st k y Hnd Hk) as Hrep. rewrite Hrep in Hfor.
    destruct (IH (S k) _ (replace_invariant st k y _ Hinv Hk Hrep) Hfor x Hx)
      as [Hin|Hle]; simpl in *.
    + apply elem_of_app in Hin as [Hin|Hin].
      * left. eapply elem_of_submseteq; [exact Hin|].
        apply sublist_submseteq, sublist_delete.
      * apply list_elem_of_singleton in Hin as ->. right. lia.
    + right. lia.
Qed.

Lemma for_asyncs_passes_over ready n i j t u st :
  pool_invariant st ->
  i <= j ->
  _asyncs st !! j = Some t ->
  _asyncs st !! S j = Some u ->
  ready t = true ->
  (forall k x, i <= k < j -> _asyncs st !! k = Some x -> ready x = false) ->
  length (_asyncs st) <= n + i ->
  exists st', for_asyncs ready n i st = Ok st' /\
    u ∈ _asyncs st' /\ t ∉ _asyncs st'.
Proof.
  intros Hinv. revert i.
  induction n as [|n IH]; intros i Hij Hj Hu Ht Hbefore Hlen.
  - apply lookup_lt_Some in Hj. lia.
  - simpl. pose proof Hinv as (_ & Hnd & Hlt & _).
    destruct (decide (i = j)) as [->|Hne].
    + rewrite Hj, Ht. pose proof (replace_at st j t Hnd Hj) as Hrep.
      rewrite Hrep.
      pose proof (replace_invariant st j t _ Hinv Hj Hrep) as Hinv1.
      destruct (for_asyncs_invariant ready n (S j) _ Hinv1)
        as (st' & Hfor & _ & _).
      exists st'. split; [done|]. split.
      * apply (list_elem_of_lookup_2 _ j).
        rewrite (for_asyncs_keeps_before _ _ _ _ _ Hinv1 Hfor j) by lia.
        simpl. apply lookup_lt_Some in Hu as Hlt'.
        rewrite lookup_app_l.
        -- by rewrite list_lookup_delete_ge.
        -- rewrite length_delete by (apply lookup_lt_is_Some; lia). lia.
      * intros Hin.
        destruct (for_asyncs_elements _ _ _ _ _ Hinv1 Hfor t Hin)
          as [Hin1|Hle]; simpl in *.
        -- apply elem_of_app in Hin1 as [Hin1|Hin1].
           ++ pose proof (delete_Permutation _ _ _ Hj) as Hperm.
              rewrite Hperm in Hnd. by apply NoDup_cons in Hnd as [Hnot _].
           ++ apply list_elem_of_singleton in Hin1.
              rewrite Forall_forall in Hlt.
              apply list_elem_of_lookup_2 in Hj. specialize (Hlt _ Hj).
              simpl in Hlt. lia.
        -- rewrite Forall_forall in Hlt.
           apply list_elem_of_lookup_2 in Hj. specialize (Hlt _ Hj).
           simpl in Hlt. lia.
    + destruct (_asyncs st !! i) as [x|] eqn:Hi.
      * rewrite (Hbefore i x) by (done || lia).
        apply IH; [lia|done..| |lia].
        intros k y Hk. apply Hbefore. lia.
      * apply lookup_ge_None in Hi. apply lookup_lt_Some in Hj. lia.
Qed.

(** X13: the loop changes the list it iterates over, so the task that
    follows a replaced one is passed over: in a state [run] reaches,
    when the first complete task in the list is [t] and [u] comes right
    after it, the turn of the loop drops [t] and still tracks [u]
    afterwards, complete or not; a complete [u] waits for a later
    turn. *)
Theorem task_after_a_replaced_one_is_passed_over
    process_count self polls st ready l1 t u l2 :
  __init__ process_count = Ok self ->
  run self polls = Ok st ->
  _asyncs st = (l1 ++ t :: u :: l2)%list ->
  Forall (fun x => ready x = false) l1 ->
  ready t = true ->
  exists st', poll ready st = Ok st' /\
    u ∈ _asyncs st' /\ t ∉ _asyncs st'.
Proof.
  intros Hinit Hrun Hl Hl1 Ht.
  destruct (run_invariant process_count self polls Hinit)
    as (st0 & Hrun0 & Hinv & _).
  assert (st0 = st) as -> by congruence.
  apply (for_asyncs_passes_over ready _ 0 (length l1) t u st Hinv); try done.
  - lia.
  - rewrite Hl. by rewrite list_lookup_middle.
  - rewrite Hl. change (l1 ++ t :: u :: l2)%list with (l1 ++ [t] ++ u :: l2)%list.
    rewrite app_assoc.
    rewrite (list_lookup_middle (l1 ++ [t]) l2 u (S (length l1)));
      [done|rewrite length_app; simpl; lia].
  - intros k x Hk Hx. rewrite Hl, lookup_app_l in Hx by lia.
    rewrite Forall_forall in Hl1. apply Hl1. by eapply list_elem_of_lookup_2.
  - lia.
Qed.

Lemma task_after_a_replaced_one_is_passed_over_witness :
  exists st',
    poll (fun _ => true)
      {| _process_count := 2; _asyncs := [0; 1]; launched := 2; warned := 0 |}
    = Ok st' /\
    1 ∈ _asyncs st' /\ 0 ∉ _asyncs st'.
Proof.
  apply (task_after_a_replaced_one_is_passed_over 2
           {| _process_count := 2; _asyncs := []; launched := 0; warned := 0 |}
           []
           {| _process_count := 2; _asyncs := [0; 1];
              launched := 2; warned := 0 |}
           (fun _ => true) [] 0 1 []); try reflexivity.
  constructor.
Defined.

End SupervisorMore.

(* ================================================================= *)
(** ** Registration: failures, defaults, order of the patterns *)

Section RegistrationMore.

Import StoreHandlerManager StorageService Samples.

Variable import_plugin : json -> res pyclass.
Variable repr : json -> string.

#[local] Abbreviation register :=
  (register_store_handler import_plugin repr).

(** What a registration with a name, a handler type and patterns that
    are strings comes to. *)
Lemma register_with_patterns self d name handler_type ps :
  d !! "name" = Some name ->
  import_plugin name = Ok handler_type ->
  default (JList [JStr "*"]) (d !! "models") = JList (JStr <$> ps) ->
  register self (JDict d) =
    match match_patterns repr self (JStr <$> ps) ∅ with
    | Raise e => (Raise e, JDict (delete "models" (delete "name" d)), self)
    | Ok matched_types =>
        (Ok tt, JDict (delete "models" (delete "name" d)),
         {| _model_types := _model_types self;
            _manager :=
              StoreHandlerManager.register_store_handler (_manager self)
                handler_type (JDict (delete "models" (delete "name" d)))
                (elements matched_types) |})
    end.
Proof.
  intros Hname Himport Hmodels. unfold register_store_handler.
  rewrite Hname, Himport. rewrite lookup_delete_ne by done.
  by rewrite Hmodels.
Qed.

(** X14: a registration that raises registers nothing: the service is
    as it was.  A config that is no mapping, or has no [name] key,
    raises [ConfigurationError] and is left as it was given. *)
Theorem failing_registration_registers_nothing self config :
  (forall e, (register self config).1.1 = Raise e ->
     (register self config).2 = self) /\
  (jget "name" config = None ->
   exists e, (register self config).1.1 = Raise e /\
     exc_class e = ConfigurationError /\
     (register self config).1.2 = config).
Proof.
  split.
  - intros e. unfold register_store_handler.
    destruct config; try done.
    destruct (d !! "name") as [name|]; [|done].
    destruct (import_plugin name); [|done].
    destruct (iterate _); [|done].
    by destruct (match_patterns _ _ _ _).
  - intros Hname. unfold register_store_handler.
    destruct config; try (by eexists). simpl in Hname. rewrite Hname.
    by eexists.
Qed.

Lemma catalog_names_elem self name :
  name ∈ catalog_names self <-> is_Some (_model_types self !! name).
Proof.
  unfold catalog_names. rewrite list_elem_of_fmap. split.
  - intros ([n c] & -> & Hin). apply elem_of_map_to_list in Hin. by eexists.
  - intros [c Hc]. exists (name, c). split; [done|].
    by apply elem_of_map_to_list.
Qed.

Lemma match_patterns_cons self pattern rest acc :
  match_patterns repr self (pattern :: rest) acc =
    match fnmatch.filter (catalog_names self) pattern with
    | Raise e => Raise e
    | Ok [] =>
        Raise (PyExc ConfigurationError
                 ("No match for model: " ++ format repr pattern))
    | Ok matches =>
        match_patterns repr self rest
          (acc ∪ list_to_set (types_of self matches))
    end.
Proof. reflexivity. Qed.

(** X15: an entry without a [models] key stands for the pattern ["*"]:
    it is registered with every model type of the catalog, each once;
    when the catalog is empty it raises ["No match for model: *"]. *)
Theorem entry_without_models_serves_every_type self d name handler_type :
  d !! "name" = Some name ->
  import_plugin name = Ok handler_type ->
  d !! "models" = None ->
  (_model_types self = ∅ ->
   (register self (JDict d)).1.1 =
     Raise (PyExc ConfigurationError "No match for model: *")) /\
  (_model_types self <> ∅ ->
   exists types,
     (register self (JDict d)).1.1 = Ok tt /\
     _manager (register self (JDict d)).2 =
       StoreHandlerManager.register_store_handler (_manager self)
         handler_type (JDict (delete "models" (delete "name" d))) types /\
     NoDup types /\
     forall c, c ∈ types <-> exists n, _model_types self !! n = Some c).
Proof.
  intros Hname Himport Hmodels.
  rewrite (register_with_patterns self d name handler_type ["*"])
    by (done || by rewrite Hmodels).
  change (JStr <$> ["*"]) with [JStr "*"].
  rewrite match_patterns_cons, filter_star. split.
  - intros Hempty. unfold catalog_names. rewrite Hempty.
    by rewrite map_to_list_empty.
  - intros Hne.
    destruct (catalog_names self) as [|n names] eqn:Hnames.
    { exfalso. apply Hne. unfold catalog_names in Hnames.
      apply fmap_nil_inv in Hnames. by apply map_to_list_empty_iff. }
    exists (elements (∅ ∪ list_to_set (types_of self (n :: names))
                      : gset pyclass)).
    split; [done|]. split; [done|]. split; [apply NoDup_elements|].
    intros c. rewrite elem_of_elements, elem_of_union, elem_of_list_to_set.
    unfold types_of. rewrite list_elem_of_omap, <- Hnames. split.
    + intros [H|(x & _ & Hx)]; [by apply not_elem_of_empty in H|eauto].
    + intros [x Hx]. right. exists x. split; [|done].
      apply catalog_names_elem. eauto.
Qed.

(** X16: an entry whose [models] is the empty list raises nothing: the
    loop over the patterns does not run and the handler type is
    registered with no model type to serve. *)
Theorem entry_with_no_pattern_serves_nothing self d name handler_type :
  d !! "name" = Some name ->
  import_plugin name = Ok handler_type ->
  d !! "models" = Some (JList []) ->
  (register self (JDict d)).1.1 = Ok tt /\
  _manager (register self (JDict d)).2 =
    StoreHandlerManager.register_store_handler (_manager self)
      handler_type (JDict (delete "models" (delete "name" d))) [].
Proof.
  intros Hname Himport Hmodels.
  rewrite (register_with_patterns self d name handler_type [])
    by (done || by rewrite Hmodels).
  change (match_patterns repr self (JStr <$> []) ∅) with (@Ok (gset pyclass) ∅).
  cbn [fst snd _manager]. by rewrite elements_empty.
Qed.

(** X17: when every pattern matches a name at least, what is registered
    does not depend on the order of the patterns nor on how often each
    is given: two entries that differ by their [models] alone, with the
    same patterns in them, lead to the same outcome, the same argument
    and the same service. *)
Theorem order_of_the_patterns_does_not_matter
    self d name handler_type ps1 ps2 :
  d !! "name" = Some name ->
  import_plugin name = Ok handler_type ->
  Forall (has_match self) ps1 ->
  (forall p, p ∈ ps1 <-> p ∈ ps2) ->
  register self (JDict (<["models" := JList (JStr <$> ps1)]> d)) =
  register self (JDict (<["models" := JList (JStr <$> ps2)]> d)).
Proof.
  intros Hname Himport Hall Hsame.
  assert (Hall2 : Forall (has_match self) ps2).
  { rewrite Forall_forall in Hall |- *. intros p Hp. by apply Hall, Hsame. }
  rewrite (register_with_patterns self _ name handler_type ps1);
    [|by rewrite lookup_insert_ne|done|by rewrite lookup_insert_eq].
  rewrite (register_with_patterns self _ name handler_type ps2);
    [|by rewrite lookup_insert_ne|done|by rewrite lookup_insert_eq].
  destruct (match_patterns_all_match repr self ps1 ∅ Hall)
    as (m1 & -> & Hm1).
  destruct (match_patterns_all_match repr self ps2 ∅ Hall2)
    as (m2 & -> & Hm2).
  assert (m1 = m2) as ->.
  { apply set_eq. intros c. rewrite Hm1, Hm2. split.
    - intros [H|(p & Hp & Hres)]; [by left|]. right. exists p.
      split; [by apply Hsame|done].
    - intros [H|(p & Hp & Hres)]; [by left|]. right. exists p.
      split; [by apply Hsame|done]. }
  rewrite !(delete_insert_ne _ "name" "models") by done.
  by rewrite !delete_insert_eq.
Qed.

End RegistrationMore.

Section RegistrationMoreOnSamples.

Import StoreHandlerManager StorageService Samples Samples2.

Lemma failing_registration_registers_nothing_witness :
  (register_store_handler sample_import_plugin sample_repr sample_storage
     (JDict no_such_entry)).2 = sample_storage /\
  exists e,
    (register_store_handler sample_import_plugin sample_repr sample_storage
       (JList [])).1.1 = Raise e /\
    exc_class e = ConfigurationError /\
    (register_store_handler sample_import_plugin sample_repr sample_storage
       (JList [])).1.2 = JList [].
Proof.
  split.
  - apply (proj1 (failing_registration_registers_nothing
                    sample_import_plugin sample_repr sample_storage
                    (JDict no_such_entry))
             (PyExc ConfigurationError "No match for model: NoSuchPrefix*")).
    vm_compute. reflexivity.
  - apply (proj2 (failing_registration_registers_nothing
                    sample_import_plugin sample_repr sample_storage
                    (JList []))).
    reflexivity.
Defined.

Lemma entry_without_models_serves_every_type_witness :
  exists types,
    (register_store_handler sample_import_plugin sample_repr sample_storage
       (JDict etcd_entry)).1.1 = Ok tt /\
    NoDup types /\
    forall c, c ∈ types <->
      exists n, _model_types sample_storage !! n = Some c.
Proof.
  destruct (entry_without_models_serves_every_type
              sample_import_plugin sample_repr sample_storage etcd_entry
              (JStr "etcd") (PyClass "commissaire.storage" "etcd")
              eq_refl eq_refl eq_refl) as [_ H].
  destruct H as (types & Hok & _ & Hnd & Hiff).
  - vm_compute. discriminate.
  - exists types. auto.
Defined.

Lemma entry_with_no_pattern_serves_nothing_witness :
  model_types <$>
    _manager (register_store_handler sample_import_plugin sample_repr
                sample_storage
                (JDict no_pattern_entry)).2
  = [[]].
Proof.
  rewrite (proj2 (entry_with_no_pattern_serves_nothing
                    sample_import_plugin sample_repr sample_storage
                    no_pattern_entry
                    (JStr "X") (PyClass "commissaire.storage" "X")
                    eq_refl eq_refl eq_refl)).
  reflexivity.
Defined.

Lemma order_of_the_patterns_does_not_matter_witness :
  register_store_handler sample_import_plugin sample_repr sample_storage
    (JDict (<["models" := JList (JStr <$> ["Node*"; "Net*"])]>
              {[ "name" := JStr "X" ]})) =
  register_store_handler sample_import_plugin sample_repr sample_storage
    (JDict (<["models" := JList (JStr <$> ["Net*"; "Node*"; "Net*"])]>
              {[ "name" := JStr "X" ]})).
Proof.
  apply (order_of_the_patterns_does_not_matter
           sample_import_plugin sample_repr sample_storage
           {[ "name" := JStr "X" ]} (JStr "X")
           (PyClass "commissaire.storage" "X")
           ["Node*"; "Net*"] ["Net*"; "Node*"; "Net*"]).
  - reflexivity.
  - reflexivity.
  - repeat constructor.
    + exists ["NodeModel"]. split; [vm_compute; reflexivity|done].
    + exists ["NetworkModel"]. split; [vm_compute; reflexivity|done].
  - intros p. rewrite !elem_of_cons, !elem_of_nil. tauto.
Defined.

End RegistrationMoreOnSamples.

(* ================================================================= *)
(** ** Models built from the arguments of a call; the stores *)

Section HandlersMore.

Import StoreHandlerManager StorageService Samples.

Variable json_loads : string -> res json.
Variable model_new : pyclass -> gmap string json -> res json.
Variable to_dict : json -> json.
Variable store : Type.
Variable manager_save : store -> json -> res json * store.
Variable manager_get : store -> json -> res json * store.
Variable manager_delete : store -> json -> res unit * store.
Variable manager_list : store -> json -> res (list json) * store.

#[local] Abbreviation build_model := (_build_model json_loads model_new).

(** X18: the data of a model given as a string: when the string does
    not parse, the error of the parser is raised; when it parses to an
    object, the model is the one built from that object given as a
    mapping; when it parses to another value, [TypeError] is raised.
    In the first and the last case the type name is not looked up: the
    outcome is the same for a name that the catalog does not hold. *)
Theorem model_data_given_as_a_string self model_type_name s :
  match json_loads s with
  | Raise e => build_model self model_type_name (JStr s) = Raise e
  | Ok (JDict d) =>
      build_model self model_type_name (JStr s) =
      build_model self model_type_name (JDict d)
  | Ok _ =>
      exists e, build_model self model_type_name (JStr s) = Raise e /\
        exc_class e = TypeError
  end.
Proof.
  unfold _build_model. destruct (json_loads s) as [[]|]; try done;
    by eexists.
Qed.

(** The type is looked up before a model is made: for data that
    is a mapping, when the catalog does not hold the type name the call
    raises [KeyError] on that name, a lookup error, whatever the
    fields; when it holds it, the model is what [new] of that type
    makes of the fields. *)
Theorem model_type_is_looked_up_first self model_type_name fields :
  match _model_types self !! model_type_name with
  | None =>
      build_model self model_type_name (JDict fields) =
        Raise (key_error model_type_name) /\
      is_LookupError (exc_class (key_error model_type_name)) = true
  | Some model_type =>
      build_model self model_type_name (JDict fields) =
        model_new model_type fields
  end.
Proof.
  unfold _build_model. by destruct (_model_types self !! model_type_name).
Qed.

Lemma build_unknown_type self model_type_name model_json_data :
  (forall name, model_type_name = JStr name ->
                _model_types self !! name = None) ->
  exists e,
    StorageRPC.build json_loads model_new self model_type_name
      model_json_data = Raise e.
Proof.
  intros Hunknown. unfold StorageRPC.build.
  destruct model_type_name as [| | |name| |];
    try (destruct (StorageRPC.parse_model_data _ _); by eexists).
  unfold _build_model. rewrite (Hunknown name eq_refl).
  destruct model_json_data; try by eexists.
  destruct (json_loads s) as [[]|]; by eexists.
Qed.

(** X19: no handler reaches the stores for a type name that the
    catalog does not hold (a string that is no key of it, or a value
    that is no string): [on_save], [on_get], [on_delete] and [on_list]
    raise and leave the stores in the state they were in. *)
Theorem unknown_type_never_reaches_the_stores
    self st model_type_name model_json_data :
  (forall name, model_type_name = JStr name ->
                _model_types self !! name = None) ->
  (exists e, StorageRPC.on_save json_loads model_new to_dict store
               manager_save self st model_type_name model_json_data =
             (Raise e, st)) /\
  (exists e, StorageRPC.on_get json_loads model_new to_dict store
               manager_get self st model_type_name model_json_data =
             (Raise e, st)) /\
  (exists e, StorageRPC.on_delete json_loads model_new store
               manager_delete self st model_type_name model_json_data =
             (Raise e, st)) /\
  (exists e, StorageRPC.on_list model_new to_dict store
               manager_list self st model_type_name = (Raise e, st)).
Proof.
  intros Hunknown.
  destruct (build_unknown_type self model_type_name model_json_data Hunknown)
    as [e He].
  unfold StorageRPC.on_save, StorageRPC.on_get, StorageRPC.on_delete,
    StorageRPC.on_list. rewrite He.
  repeat split; try by eexists.
  unfold StorageRPC.lookup_model_type.
  destruct model_type_name as [| | |name| |]; try by eexists.
  rewrite (Hunknown name eq_refl). by eexists.
Qed.

End HandlersMore.

Section HandlersMoreOnSamples.

Import StoreHandlerManager StorageService Samples Samples2.

Lemma unknown_type_never_reaches_the_stores_witness :
  exists e,
    StorageRPC.on_save sample_json_loads sample_model_new (fun m => m)
      (list json) sample_save sample_storage [] (JStr "NoSuchModel")
      (JDict ∅) = (Raise e, []).
Proof.
  apply (unknown_type_never_reaches_the_stores
           sample_json_loads sample_model_new (fun m => m) (list json)
           sample_save sample_get sample_delete sample_list
           sample_storage [] (JStr "NoSuchModel") (JDict ∅)).
  intros name [= <-]. reflexivity.
Defined.

End HandlersMoreOnSamples.

(* ================================================================= *)
(** ** Construction of the storage service *)

Section Construction.

Import StoreHandlerManager StorageService Samples.

Variable import_plugin : json -> res pyclass.
Variable repr : json -> string.

#[local] Abbreviation init := (StorageRPC.__init__ import_plugin repr).
#[local] Abbreviation register_all :=
  (StorageRPC.register_all import_plugin repr).

(** A registration that succeeds leaves its argument without the
    [name] key. *)
Lemma registered_argument self d self' config' :
  register_store_handler import_plugin repr self (JDict d) =
    (Ok tt, config', self') ->
  config' = JDict (delete "models" (delete "name" d)).
Proof.
  unfold register_store_handler.
  destruct (d !! "name") as [name|]; [|done].
  destruct (import_plugin name); [|done].
  destruct (iterate _); [|done].
  destruct (match_patterns _ _ _ _); [|done].
  by intros [= <- _].
Qed.

Lemma init_with_the_default model_types data default_handler :
  data !! "storage_handlers" = None \/
  data !! "storage_handlers" = Some (JList []) ->
  init model_types (JDict data) default_handler =
    register_all {| _model_types := model_types; _manager := [] |}
      [default_handler].
Proof. unfold StorageRPC.__init__. by intros [-> | ->]. Qed.

Lemma register_all_one self config :
  register_all self [config] =
    match register_store_handler import_plugin repr self config with
    | (Ok _, config', self') => (Ok self', [config'])
    | (Raise e, config', _) => (Raise e, [config'])
    end.
Proof.
  unfold StorageRPC.register_all.
  by destruct (register_store_handler import_plugin repr self config)
    as [[[] ?] ?].
Qed.

(** X20: with no store handler configured (no [storage_handlers] key,
    or an empty list), the entry that is registered is the mapping
    [C.DEFAULT_ETCD_STORE_HANDLER] itself, which the registration
    changes: once a service has been made this way, that mapping has no
    [name] key any more, and making a second service the same way
    raises [ConfigurationError]. *)
Theorem default_store_handler_is_used_up model_types data d self :
  data !! "storage_handlers" = None \/
  data !! "storage_handlers" = Some (JList []) ->
  (init model_types (JDict data) (JDict d)).1 = Ok self ->
  exists d',
    (init model_types (JDict data) (JDict d)).2 = [JDict d'] /\
    d' !! "name" = None /\
    exists e,
      (init model_types (JDict data) (JDict d')).1 = Raise e /\
      exc_class e = ConfigurationError.
Proof.
  intros Hdata. rewrite !(init_with_the_default _ _ _ Hdata).
  rewrite register_all_one.
  destruct (register_store_handler import_plugin repr
              {| _model_types := model_types; _manager := [] |} (JDict d))
    as [[[[]|e] config'] self'] eqn:Hreg; [|done].
  intros _. apply registered_argument in Hreg as ->.
  exists (delete "models" (delete "name" d)). split; [done|].
  assert (Hname : delete "models" (delete "name" d) !! "name" = None)
    by by rewrite lookup_delete_ne, lookup_delete_eq.
  split; [done|].
  rewrite !(init_with_the_default _ _ _ Hdata), register_all_one.
  unfold register_store_handler. rewrite Hname. by eexists.
Qed.

Lemma register_all_stops self0 before bad after self before' bad' e :
  register_all self0 before = (Ok self, before') ->
  (register_store_handler import_plugin repr self bad).1 = (Raise e, bad') ->
  register_all self0 (before ++ bad :: after) =
    (Raise e, (before' ++ bad' :: after)%list).
Proof.
  intros Hbefore Hbad. revert self0 before' Hbefore.
  induction before as [|config before IH]; intros self0 before' Hbefore.
  - injection Hbefore as -> <-. cbn [app StorageRPC.register_all].
    destruct (register_store_handler import_plugin repr self bad)
      as [[r c] s]. simpl in Hbad. by injection Hbad as -> ->.
  - cbn [app StorageRPC.register_all] in *.
    destruct (register_store_handler import_plugin repr self0 config)
      as [[[[]|e0] config'] self1]; [|done].
    destruct (StorageRPC.register_all import_plugin repr self1 before)
      as [r rest'] eqn:Hrest.
    injection Hbefore as -> <-.
    by rewrite (IH self1 rest' Hrest).
Qed.

(** X21: the entries are registered in order and the first failure
    ends the construction: when the entries before [bad] register and
    [bad] raises [e], [__init__] raises [e]; the entries after [bad]
    are left as they were given. *)
Theorem construction_stops_at_the_first_failure
    model_types data default_handler before bad after self before' bad' e :
  data !! "storage_handlers" = Some (JList (before ++ bad :: after)) ->
  register_all {| _model_types := model_types; _manager := [] |} before =
    (Ok self, before') ->
  (register_store_handler import_plugin repr self bad).1 = (Raise e, bad') ->
  init model_types (JDict data) default_handler =
    (Raise e, (before' ++ bad' :: after)%list).
Proof.
  intros Hdata Hbefore Hbad. unfold StorageRPC.__init__.
  rewrite Hdata. cbn [default from_option id StorageRPC.len iterate].
  rewrite bool_decide_eq_false_2 by (rewrite length_app; simpl; lia).
  by apply (register_all_stops _ _ _ _ self).
Qed.

End Construction.

Section ConstructionOnSamples.

Import StoreHandlerManager StorageService Samples Samples2.

Lemma default_store_handler_is_used_up_witness :
  exists d',
    (StorageRPC.__init__ sample_import_plugin sample_repr
       (_model_types sample_storage) (JDict ∅) (JDict default_entry)).2 =
      [JDict d'] /\
    d' !! "name" = None /\
    exists e,
      (StorageRPC.__init__ sample_import_plugin sample_repr
         (_model_types sample_storage) (JDict ∅) (JDict d')).1 = Raise e /\
      exc_class e = ConfigurationError.
Proof.
  apply (default_store_handler_is_used_up sample_import_plugin sample_repr
           (_model_types sample_storage) ∅ default_entry
           (register_store_handler sample_import_plugin sample_repr
              sample_storage (JDict default_entry)).2).
  - left. reflexivity.
  - vm_compute. reflexivity.
Defined.

Lemma construction_stops_at_the_first_failure_witness :
  StorageRPC.__init__ sample_import_plugin sample_repr
    (_model_types sample_storage)
    (JDict {[ "storage_handlers" :=
                JList [JDict node_entry; JDict no_such_entry;
                       JDict etcd_entry] ]})
    (JDict default_entry) =
    (Raise (PyExc ConfigurationError "No match for model: NoSuchPrefix*"),
     [JDict ∅; JDict ∅; JDict etcd_entry]).
Proof.
  apply (construction_stops_at_the_first_failure
           sample_import_plugin sample_repr (_model_types sample_storage)
           {[ "storage_handlers" :=
                JList [JDict node_entry; JDict no_such_entry;
                       JDict etcd_entry] ]}
           (JDict default_entry) [JDict node_entry] (JDict no_such_entry)
           [JDict etcd_entry] listing_storage [JDict ∅]).
  - reflexivity.
  - vm_compute. reflexivity.
  - vm_compute. reflexivity.
Defined.

End ConstructionOnSamples.

(* ================================================================= *)
(** ** The playbook wrapper *)

Section Playbook.

Import ansible_wrapper Samples2.

Variable dict_iter : gmap string json -> list string.
Variable realpath : string -> string.
Variable cli_parse : list string -> res unit.
Variable cli_run : list string -> res Z.
Variable issubclass : pyclass -> pyclass -> bool.

Lemma append_assoc (a b c : string) : (a ++ b) ++ c = a ++ b ++ c.
Proof.
  induction a as [|x a IH]; [done|].
  change (String x ((a ++ b) ++ c) = String x (a ++ b ++ c)).
  by rewrite IH.
Qed.

Lemma str_items_strings i hs : str_items i (JStr <$> hs) = Ok hs.
Proof.
  revert i. induction hs as [|h hs IH]; intros i; simpl; [done|].
  by rewrite IH.
Qed.

Lemma split_at_sep sep h rest :
  ~ In sep (String.list_ascii_of_string h) ->
  split sep (h ++ String sep rest) = h :: split sep rest.
Proof.
  induction h as [|c h IH]; intros Hh.
  - change (split sep (String sep rest) = "" :: split sep rest).
    simpl. by rewrite Ascii.eqb_refl.
  - change (split sep (String c (h ++ String sep rest)) =
            String c h :: split sep rest).
    simpl. destruct (Ascii.eqb_spec c sep) as [->|Hne].
    + exfalso. apply Hh. by left.
    + rewrite IH; [done|]. intros Hin. apply Hh. by right.
Qed.

Lemma split_join hs :
  hs <> [] ->
  Forall (fun h => ~ In ","%char (String.list_ascii_of_string h)) hs ->
  split "," (join "," hs ++ ",") = (hs ++ [""])%list.
Proof.
  induction hs as [|h hs IH]; intros Hne Hall; [done|].
  apply Forall_cons in Hall as [Hh Hall].
  destruct hs as [|h2 hs].
  - simpl. change (h ++ ",") with (h ++ String ","%char "").
    by rewrite split_at_sep.
  - change (join "," (h :: h2 :: hs)) with (h ++ "," ++ join "," (h2 :: hs)).
    rewrite append_assoc.
    change (("," ++ join "," (h2 :: hs)) ++ ",")
      with (String ","%char (join "," (h2 :: hs) ++ ",")).
    rewrite split_at_sep by done. by rewrite IH.
Qed.

(** X22: hosts given as a list of names that hold no comma, one at
    least: the value given to [--inventory-file] is the names joined by
    commas with a comma at the end, from which splitting at the commas
    gives the names back, followed by an empty one; a single host given
    as a string yields the same value as the list of that host alone.
    The command line is [playbook], the arguments given, the inventory
    option with that value, and the real path of the playbook last;
    when the CLI parses it and runs, the status code of the run is
    returned, and the one record logged is the command line. *)
Theorem hosts_can_be_read_back playbook hs args code :
  hs <> [] ->
  Forall (fun h => ~ In ","%char (String.list_ascii_of_string h)) hs ->
  let hosts := join "," hs ++ "," in
  let cli :=
    ("playbook" :: args ++ ["--inventory-file"; hosts; realpath playbook])%list
  in
  cli_parse cli = Ok tt ->
  cli_run cli = Ok code ->
  inventory dict_iter (JList (JStr <$> hs)) = Ok hosts /\
  split "," hosts = (hs ++ [""])%list /\
  (forall h, hs = [h] -> inventory dict_iter (JStr h) = Ok hosts) /\
  execute_playbook dict_iter realpath cli_parse cli_run issubclass playbook
    (JList (JStr <$> hs)) args =
    (Ok code, [(INFO, "Executing: " ++ join " " cli)]).
Proof.
  intros Hne Hall hosts cli Hparse Hrun.
  assert (Hinv : inventory dict_iter (JList (JStr <$> hs)) = Ok hosts)
    by (unfold inventory; by rewrite str_items_strings).
  split; [done|]. split; [by apply split_join|]. split.
  - by intros h ->.
  - unfold execute_playbook. rewrite Hinv.
    change (cli_args realpath playbook hosts args) with cli.
    by rewrite Hparse, Hrun.
Qed.

(** X23: hosts that are neither a string nor iterable ([null], a
    boolean, a number) make [execute_playbook] raise
    [AnsibleParserError] to its caller, and a list with an item that is
    no string makes it raise [TypeError], before anything is logged and
    whatever the CLI would do.  When the hosts are read and [parse], or
    [run] after it, raises an error, that error reaches the caller in
    every case and no status code is returned; when it is an
    [AnsibleParserError] or an [AnsibleOptionsError] it is logged first,
    as the text of its class, a colon and its message, after the record
    of the command line. *)
Theorem errors_of_the_cli_are_logged_and_raised playbook hosts args :
  match inventory dict_iter hosts with
  | Raise e =>
      execute_playbook dict_iter realpath cli_parse cli_run issubclass
        playbook hosts args = (Raise e, []) /\
      (match hosts with
       | JNull | JBool _ | JNum _ => exc_class e = AnsibleParserError
       | _ => exc_class e = TypeError
       end)
  | Ok inv =>
      let cli := cli_args realpath playbook inv args in
      forall e,
        cli_parse cli = Raise e \/
        (cli_parse cli = Ok tt /\ cli_run cli = Raise e) ->
        execute_playbook dict_iter realpath cli_parse cli_run issubclass
          playbook hosts args =
          (Raise e,
           (INFO, "Executing: " ++ join " " cli) ::
           if issubclass (exc_class e) AnsibleParserError ||
              issubclass (exc_class e) AnsibleOptionsError
           then [(ERROR, class_str (exc_class e) ++ ": " ++ exc_text e)]
           else [])
  end.
Proof.
  unfold execute_playbook, logged.
  destruct (inventory dict_iter hosts) as [inv|e] eqn:Hinv.
  - intros e [Hparse|[Hparse Hrun]].
    + rewrite Hparse. by destruct (_ || _).
    + rewrite Hparse, Hrun. by destruct (_ || _).
  - split; [done|]. unfold inventory in Hinv.
    destruct hosts as [| | |s|l|d]; try (by injection Hinv as <-); try done.
    destruct (str_items 0 l) as [|e0] eqn:Hl; [done|].
    injection Hinv as <-. clear -Hl. revert Hl. generalize 0.
    induction l as [|x l IH]; intros i Hl; simpl in Hl; [done|].
    destruct x; try (by injection Hl as <-).
    destruct (str_items (S i) l) eqn:Hl'; [done|].
    injection Hl as <-. by eapply IH.
Qed.

End Playbook.

Section PlaybookOnSamples.

Import ansible_wrapper Samples2.

Lemma hosts_can_be_read_back_witness :
  inventory sample_dict_iter (JList [JStr "10.0.0.1"; JStr "10.0.0.2"]) =
    Ok "10.0.0.1,10.0.0.2," /\
  split "," "10.0.0.1,10.0.0.2," = ["10.0.0.1"; "10.0.0.2"; ""] /\
  execute_playbook sample_dict_iter sample_realpath sample_parse sample_run
    sample_issubclass
    "/srv/bootstrap.yaml" (JList [JStr "10.0.0.1"; JStr "10.0.0.2"])
    ["-v"] =
    (Ok 0%Z,
     [(INFO,
       "Executing: playbook -v --inventory-file 10.0.0.1,10.0.0.2, " ++
       "/srv/bootstrap.yaml")]).
Proof.
  destruct (hosts_can_be_read_back sample_dict_iter sample_realpath
              sample_parse sample_run
              sample_issubclass "/srv/bootstrap.yaml"
              ["10.0.0.1"; "10.0.0.2"] ["-v"] 0%Z)
    as (H1 & H2 & _ & H4); try reflexivity; try done.
  repeat constructor; simpl; intros H; by repeat destruct H as [H|H].
Defined.

Lemma errors_of_the_cli_are_logged_and_raised_witness :
  execute_playbook sample_dict_iter sample_realpath failing_parse sample_run
    sample_issubclass "/srv/bootstrap.yaml" (JStr "10.0.0.1") [] =
    (Raise (PyExc AnsibleParserError "no playbook"),
     [(INFO,
       "Executing: playbook --inventory-file 10.0.0.1, /srv/bootstrap.yaml");
      (ERROR, "<class 'ansible.errors.AnsibleParserError'>: no playbook")]).
Proof.
  apply (errors_of_the_cli_are_logged_and_raised sample_dict_iter
           sample_realpath failing_parse
           sample_run sample_issubclass "/srv/bootstrap.yaml"
           (JStr "10.0.0.1") []
           (PyExc AnsibleParserError "no playbook")).
  left. reflexivity.
Defined.

End PlaybookOnSamples.

(* ================================================================= *)
(** ** The general facts on dispatch and on requests, on samples *)

Section GeneralFactsOnSamples.

Import CommissaireService Samples Observe.

Lemma wrap_routing_key_without_dot_witness :
  _wrap_on_message sample_service (JStr "hello") (inbound "broadcast")
    quiet_world =
    (Raise (PyExc IndexError "list index out of range"), quiet_world).
Proof.
  apply (wrap_routing_key_without_dot sample_service (JStr "hello")
           (inbound "broadcast") quiet_world).
  simpl. intros H. by repeat destruct H as [H|H].
Defined.

Lemma request_without_reply_witness :
  let out := request "storage.get" "get" (JList []) None quiet_world in
  out.1 = Raise (PyExc QueueEmpty "") /\
  w_trace out.2 =
    [EvDeclare "response-uuid-0" reply_queue_opts;
     EvPublish "storage.get" (jsonrpc_msg "uuid-0" "get" (JList []))
       "response-uuid-0";
     EvGet "response-uuid-0" 3] /\
  is_Some (w_queues out.2 !! "response-uuid-0").
Proof.
  apply (request_without_reply "storage.get" "get" (JList []) quiet_world).
  left. reflexivity.
Defined.

Lemma request_with_reply_witness :
  let out := request "storage.get" "get" (JList []) None
               (answering_world (JDict ∅)) in
  out.1 = Ok (JDict ∅) /\
  w_trace out.2 =
    [EvDeclare "response-uuid-0" reply_queue_opts;
     EvPublish "storage.get" (jsonrpc_msg "uuid-0" "get" (JList []))
       "response-uuid-0";
     EvGet "response-uuid-0" 3; EvAckReply "response-uuid-0";
     EvClose "response-uuid-0"] /\
  w_queues out.2 !! "response-uuid-0" = None.
Proof.
  apply (request_with_reply "storage.get" "get" (JList [])
           (answering_world (JDict ∅)) ∅ []); reflexivity.
Defined.

End GeneralFactsOnSamples.
